(** * State-pattern demos: a shallow embedding of [src/statemachine]

    The repository holds three illustrations of the State pattern:
    - [tcpexample.h]  (namespace [tcp]): the TCP connection sketch, with one
      function-local static instance per concrete state class;
    - [chatbot.h]     (namespace [chat]): the patient-intake chatbot, again
      with one static instance per state class;
    - [nosingleton.h] (namespace [nosingleton]): the same chatbot, with the
      state objects owned by a [StateSet] and named by the enum [StateName].

    Objects live in a store indexed by addresses, handlers receive the
    address of their context as the C++ code receives [this] / [bot], and
    every member function is a computation in a state-and-fault monad over
    that store.  [assert] is modelled as enabled: a failing assertion aborts
    the computation. *)

From Stdlib Require Import ZArith Ascii String.
From stdpp Require Import base option gmap strings pretty.

Local Open Scope Z_scope.
Local Open Scope string_scope.

(** ** Faults and the monad of member functions *)

(** What stops a computation: a failed [assert(e)], or the use of a pointer
    that is null or does not designate a live object. *)
Inductive fault : Type :=
  | AssertionFailed (expr : string)
  | InvalidPointer.

Inductive result (W A : Type) : Type :=
  | Returned (a : A) (w : W)
  | Aborted (f : fault).
Arguments Returned {W A} a w.
Arguments Aborted {W A} f.

(** A member function running over a world [W] and returning an [A]. *)
Definition M (W A : Type) : Type := W → result W A.

Definition M_ret {W A} (a : A) : M W A := λ w, Returned a w.

Definition M_bind {W A B} (f : A → M W B) (m : M W A) : M W B :=
  λ w, match m w with
       | Returned a w' => f a w'
       | Aborted e => Aborted e
       end.

Global Instance M_mret W : MRet (M W) := λ A, @M_ret W A.
Global Instance M_mbind W : MBind (M W) := λ A B, @M_bind W A B.

Definition abort {W A} (e : fault) : M W A := λ _, Aborted e.
Definition modify {W} (f : W → W) : M W unit := λ w, Returned tt (f w).

(** [assert(e)]: [cond] is the value of [e], [expr] its text. *)
Definition assert {W} (cond : bool) (expr : string) : M W unit :=
  if cond then mret tt else abort (AssertionFailed expr).

(** Addresses of context objects. *)
Abbreviation addr := positive.

(** A [T*] is null or the address of a [T]. *)
Abbreviation nullptr := None (only parsing).

(** [p] used in a boolean context, as in [assert(p)]. *)
Definition to_bool {T} (p : option T) : bool :=
  match p with Some _ => true | None => false end.

(** [p->f(...)]: the member function [f] runs on the object [p] points to. *)
Definition arrow {W T A} (p : option T) (f : T → M W A) : M W A :=
  match p with
  | Some a => f a
  | None => abort InvalidPointer
  end.

(** Reading the object at address [a] of the store [objs]. *)
Definition load {W T} (objs : W → gmap addr T) (a : addr) : M W T :=
  λ w, match objs w !! a with
       | Some o => Returned o w
       | None => Aborted InvalidPointer
       end.

(** ** The standard streams *)

Module std.

(** What the code asks of [std::cin].  The streams library is not part of
    the repository, so the handlers are written against this interface:
    - [getline cin] is the content of a fresh [std::string line] after
      [getline(std::cin, line)], with the stream that remains;
    - [extract_int init cin] is the value held by an [int] variable after
      [std::cin >> v], where [init] is what it held before ([None] for a
      variable declared without initialiser), with the stream that remains;
    - [ignore_line cin] is the stream after
      [std::cin.ignore(numeric_limits<streamsize>::max(), '\n')].

    An extraction that cannot start leaves its variable as it was.  For a
    variable without initialiser that is an indeterminate value:
    [extract_int None] stands for whatever the variable holds then, and a
    statement that compares runs, or speaks of what was read, has to assume
    [extraction_writes] below. *)
Class IStream (istream : Type) : Type := {
  getline : istream → string * istream;
  extract_int : option Z → istream → Z * istream;
  ignore_line : istream → istream;
}.

(** [std::cin >> v] stores a value into [v]: what [v] holds afterwards does
    not depend on what it held before.  This fails when the extraction
    cannot start (the stream is not good, or the input is exhausted), where
    [v] is left as it was. *)
Definition extraction_writes {istream : Type} `{!IStream istream}
    (cin : istream) : Prop :=
  ∀ init, extract_int init cin = extract_int None cin.

(** An output stream is the text written to it so far. *)
Abbreviation ostream := string.

Definition newline : string := String "010"%char EmptyString.

(** [std::endl] writes a newline (the flush is not modelled). *)
Definition endl : string := newline.

(** ["\n\n...\n"], [n] times. *)
Fixpoint newlines (n : nat) : string :=
  match n with
  | O => EmptyString
  | S n' => newline +:+ newlines n'
  end.

(** The streams a [std::ostream&] argument can refer to. *)
Inductive ostream_ref : Type := cout_ref | cerr_ref.

End std.

(** ** A console for running the demos

    One implementation of the interface above, on the characters that are
    still to be read: enough of the behaviour of [std::cin] to run the
    handlers on typed input.  The theorems below do not depend on it; it
    provides their concrete instances. *)

Module console.

(** The characters not yet read, and [std::cin.good()]. *)
Record t : Type := {
  pending : string;
  good : bool;
}.

(** Input typed at the keyboard, nothing read yet. *)
Definition typed (s : string) : t := {| pending := s; good := true |}.

Definition is_space (c : ascii) : bool :=
  let n := nat_of_ascii c in
  bool_decide (n = 32 ∨ (9 ≤ n ∧ n ≤ 13))%nat.

Definition is_digit (c : ascii) : bool :=
  let n := nat_of_ascii c in
  bool_decide (48 ≤ n ∧ n ≤ 57)%nat.

Fixpoint skip_spaces (s : string) : string :=
  match s with
  | String c s' => if is_space c then skip_spaces s' else s
  | EmptyString => EmptyString
  end.

(** The characters before the first newline, what follows that newline, and
    whether a newline was met before the end of the input. *)
Fixpoint upto_newline (s : string) : string * string * bool :=
  match s with
  | EmptyString => (EmptyString, EmptyString, false)
  | String c s' =>
      if bool_decide (c = "010"%char) then (EmptyString, s', true)
      else let '(line, rest, found) := upto_newline s' in
           (String c line, rest, found)
  end.

(** The value of the leading decimal digits after [acc], how many there
    are, and the rest. *)
Fixpoint digits (acc : Z) (count : nat) (s : string) : Z * nat * string :=
  match s with
  | String c s' =>
      if is_digit c
      then digits (10 * acc + (Z.of_nat (nat_of_ascii c) - 48)) (S count) s'
      else (acc, count, s)
  | EmptyString => (acc, count, EmptyString)
  end.

Definition INT_MAX : Z := 2147483647.
Definition INT_MIN : Z := -2147483648.

Definition getline (c : t) : string * t :=
  if good c then
    let '(line, rest, found) := upto_newline (pending c) in
    (line, {| pending := rest; good := found |})
  else (EmptyString, c).

(** A variable without initialiser that is not written reads as [0] here. *)
Definition extract_int (init : option Z) (c : t) : Z * t :=
  if good c then
    match skip_spaces (pending c) with
    | EmptyString => (default 0 init, {| pending := EmptyString; good := false |})
    | String c0 s' as s =>
        let '(negative, s1) :=
          if bool_decide (c0 = "-"%char) then (true, s')
          else if bool_decide (c0 = "+"%char) then (false, s')
          else (false, s) in
        let '(magnitude, count, rest) := digits 0 0 s1 in
        let v := if negative : bool then - magnitude else magnitude in
        match count with
        | O => (0, {| pending := rest; good := false |})
        | S _ =>
            if bool_decide (INT_MAX < v)
            then (INT_MAX, {| pending := rest; good := false |})
            else if bool_decide (v < INT_MIN)
            then (INT_MIN, {| pending := rest; good := false |})
            else (v, {| pending := rest; good := bool_decide (rest ≠ EmptyString) |})
        end
    end
  else (default 0 init, c).

Definition ignore_line (c : t) : t :=
  if good c then
    let '(_, rest, found) := upto_newline (pending c) in
    {| pending := rest; good := found |}
  else c.

Global Instance istream : std.IStream t :=
  {| std.getline := getline;
     std.extract_int := extract_int;
     std.ignore_line := ignore_line |}.

End console.

(** ** [tcpexample.h] *)

Module tcp.

(** The concrete state classes.  Each has a static member function
    [instance()] returning the address of its function-local static object;
    a [TCPState*] is therefore null or the address of one of these objects,
    which the class names. *)
Inductive TCPStateClass : Type :=
  | TCPEstablished | TCPListen | TCPClosed
  | TCPSynSent | TCPSynRecieved | TCPFinWait1 | TCPFinWait2
  | TCPCloseWait | TCPClosing | TCPLastAck | TCPTimeWait.

Global Instance TCPStateClass_eq_dec : EqDecision TCPStateClass.
Proof. solve_decision. Defined.

(** [C::instance()]: [static C state{}; return &state;] *)
Definition instance (c : TCPStateClass) : option TCPStateClass := Some c.

(** The data members of [TCPConnection]. *)
Record TCPConnection : Type := {
  current_state_ : option TCPStateClass;
  is_server_ : bool;
}.

(** The connections in memory and the text written to [std::cerr]. *)
Record world : Type := {
  connections : gmap addr TCPConnection;
  cerr : std.ostream;
}.

Definition set_connections (f : gmap addr TCPConnection → gmap addr TCPConnection)
    (w : world) : world :=
  {| connections := f (connections w); cerr := cerr w |}.

(** [std::cerr << s] *)
Definition cerr_put (s : string) : M world unit :=
  modify (λ w, {| connections := connections w; cerr := cerr w +:+ s |}).

(** [void TCPConnection::change_state(TCPState* state)] *)
Definition TCPConnection_change_state (this : addr)
    (state : option TCPStateClass) : M world unit :=
  assert (to_bool state) "state";;
  conn ← load connections this;
  modify (set_connections
            <[this := {| current_state_ := state; is_server_ := is_server_ conn |}]>).

(** [void TCPState::change_state(TCPConnection* context, TCPState* state)] *)
Definition TCPState_change_state (context : option addr)
    (state : option TCPStateClass) : M world unit :=
  assert (to_bool context) "context";;
  arrow context (λ this, TCPConnection_change_state this state).

(** Default handlers of the base class [TCPState]. *)
Definition TCPState_transmit (context : option addr) (stream : std.ostream_ref)
    : M world unit :=
  cerr_put "Error: current state does not implement TCPState::transmit";;
  cerr_put std.endl.

Definition TCPState_active_open (context : option addr) : M world unit :=
  cerr_put "Error: current state does not implement TCPState::active_open";;
  cerr_put std.endl.

Definition TCPState_passive_open (context : option addr) : M world unit :=
  cerr_put "Error: current state does not implement TCPState::passive_open";;
  cerr_put std.endl.

Definition TCPState_close (context : option addr) : M world unit :=
  cerr_put "Error: current state does not implement TCPState::close";;
  cerr_put std.endl.

Definition TCPState_synchronize (context : option addr) : M world unit :=
  cerr_put "Error: current state does not implement TCPState::synchronize";;
  cerr_put std.endl.

Definition TCPState_acknowledge (context : option addr) : M world unit :=
  cerr_put "Error: current state does not implement TCPState::acknowledge";;
  cerr_put std.endl.

Definition TCPState_send (context : option addr) : M world unit :=
  cerr_put "Error: current state does not implement TCPState::send";;
  cerr_put std.endl.

(** Handlers of the concrete states. *)
Definition TCPEstablished_transmit (context : option addr)
    (stream : std.ostream_ref) : M world unit :=
  assert (to_bool context) "context".

Definition TCPEstablished_close (context : option addr) : M world unit :=
  assert (to_bool context) "context";;
  TCPState_change_state context (instance TCPListen).

Definition TCPListen_send (context : option addr) : M world unit :=
  assert (to_bool context) "context";;
  TCPState_change_state context (instance TCPEstablished);;
  TCPState_change_state context (instance TCPEstablished).

Definition TCPClosed_active_open (context : option addr) : M world unit :=
  assert (to_bool context) "context";;
  TCPState_change_state context (instance TCPEstablished);;
  TCPState_change_state context (instance TCPEstablished).

Definition TCPClosed_passive_open (context : option addr) : M world unit :=
  assert (to_bool context) "context";;
  TCPState_change_state context (instance TCPListen).

(** The virtual member functions a class declares with [override]; a slot
    left empty is inherited from [TCPState]. *)
Record overriders : Type := {
  o_transmit : option (option addr → std.ostream_ref → M world unit);
  o_active_open : option (option addr → M world unit);
  o_passive_open : option (option addr → M world unit);
  o_close : option (option addr → M world unit);
  o_synchronize : option (option addr → M world unit);
  o_acknowledge : option (option addr → M world unit);
  o_send : option (option addr → M world unit);
}.

Definition no_overriders : overriders :=
  {| o_transmit := None; o_active_open := None; o_passive_open := None;
     o_close := None; o_synchronize := None; o_acknowledge := None;
     o_send := None |}.

(** The class definitions of lines 96-197. *)
Definition declared (c : TCPStateClass) : overriders :=
  match c with
  | TCPEstablished =>
      {| o_transmit := Some TCPEstablished_transmit; o_active_open := None;
         o_passive_open := None; o_close := Some TCPEstablished_close;
         o_synchronize := None; o_acknowledge := None; o_send := None |}
  | TCPListen =>
      {| o_transmit := None; o_active_open := None; o_passive_open := None;
         o_close := None; o_synchronize := None; o_acknowledge := None;
         o_send := Some TCPListen_send |}
  | TCPClosed =>
      {| o_transmit := None; o_active_open := Some TCPClosed_active_open;
         o_passive_open := Some TCPClosed_passive_open; o_close := None;
         o_synchronize := None; o_acknowledge := None; o_send := None |}
  | TCPSynSent | TCPSynRecieved | TCPFinWait1 | TCPFinWait2
  | TCPCloseWait | TCPClosing | TCPLastAck | TCPTimeWait => no_overriders
  end.

(** The requests of the public interface of [TCPConnection]. *)
Inductive Request : Type :=
  | transmit (stream : std.ostream_ref)
  | active_open | passive_open | close | synchronize | acknowledge | send.

(** Virtual call [state->r(context)] on an object of dynamic class [c]: the
    final overrider is the one the class declares, else the one of
    [TCPState]. *)
Definition virtual_call (c : TCPStateClass) (r : Request)
    (context : option addr) : M world unit :=
  match r with
  | transmit stream =>
      default TCPState_transmit (o_transmit (declared c)) context stream
  | active_open => default TCPState_active_open (o_active_open (declared c)) context
  | passive_open => default TCPState_passive_open (o_passive_open (declared c)) context
  | close => default TCPState_close (o_close (declared c)) context
  | synchronize => default TCPState_synchronize (o_synchronize (declared c)) context
  | acknowledge => default TCPState_acknowledge (o_acknowledge (declared c)) context
  | send => default TCPState_send (o_send (declared c)) context
  end.

(** Whether class [c] overrides the handler of request [r]. *)
Definition overrides (c : TCPStateClass) (r : Request) : bool :=
  match r with
  | transmit _ => bool_decide (is_Some (o_transmit (declared c)))
  | active_open => bool_decide (is_Some (o_active_open (declared c)))
  | passive_open => bool_decide (is_Some (o_passive_open (declared c)))
  | close => bool_decide (is_Some (o_close (declared c)))
  | synchronize => bool_decide (is_Some (o_synchronize (declared c)))
  | acknowledge => bool_decide (is_Some (o_acknowledge (declared c)))
  | send => bool_decide (is_Some (o_send (declared c)))
  end.

(** The public member functions of [TCPConnection], lines 56-62:
    [void r() { current_state_->r(this); }] *)
Definition request (this : addr) (r : Request) : M world unit :=
  conn ← load connections this;
  arrow (current_state_ conn) (λ c, virtual_call c r (Some this)).

(** [bool is_server() { return is_server_; }] *)
Definition is_server (this : addr) : M world bool :=
  conn ← load connections this;
  mret (is_server_ conn).

(** [TCPConnection::TCPConnection(bool is_server)], for the object under
    construction at address [this]: the member initialisers
    [current_state_{}] and [is_server_(is_server)], then the body. *)
Definition TCPConnection_ctor (this : addr) (is_server : bool) : M world unit :=
  modify (set_connections
            <[this := {| current_state_ := nullptr; is_server_ := is_server |}]>);;
  TCPConnection_change_state this (instance TCPClosed).

(** A client driving the connection at [this] with a sequence of requests. *)
Fixpoint requests (this : addr) (rs : list Request) : M world unit :=
  match rs with
  | [] => mret tt
  | r :: rs' => request this r;; requests this rs'
  end.

(** The name of the member function a request calls. *)
Definition member_function (r : Request) : string :=
  match r with
  | transmit _ => "transmit"
  | active_open => "active_open"
  | passive_open => "passive_open"
  | close => "close"
  | synchronize => "synchronize"
  | acknowledge => "acknowledge"
  | send => "send"
  end.

(** What request [r] writes to [std::cerr] when the current state is the
    instance of class [c]: the request is run on a connection in that
    state, with nothing written yet. *)
Definition diagnostic (c : TCPStateClass) (r : Request) : option string :=
  let conn := {| current_state_ := instance c; is_server_ := false |} in
  match request 1%positive r
          {| connections := {[1%positive := conn]}; cerr := EmptyString |} with
  | Returned _ w => Some (cerr w)
  | Aborted _ => None
  end.

(** The message of the default handler of request [r], without the
    [std::endl] that follows it. *)
Definition default_message (r : Request) : string :=
  "Error: current state does not implement TCPState::" +:+ member_function r.

(** The diagnostic identifies the state: the class of the current state can
    be read off the message. *)
Definition diagnostic_identifies_state : Prop :=
  ∃ state_of : string → TCPStateClass,
    ∀ c r msg, overrides c r = false → diagnostic c r = Some msg →
               state_of msg = c.

(** The diagnostic identifies the event: the member function requested can
    be read off the message. *)
Definition diagnostic_identifies_event : Prop :=
  ∃ event_of : string → string,
    ∀ c r msg, overrides c r = false → diagnostic c r = Some msg →
               event_of msg = member_function r.

(** A connection whose current state is the instance of class [c]. *)
Definition connection_in (c : TCPStateClass) (is_server : bool) : TCPConnection :=
  {| current_state_ := instance c; is_server_ := is_server |}.

(** The connection at [a] has a current state: [current_state_] is not
    null, so it is the address of one of the [instance()] objects. *)
Definition has_state (w : world) (a : addr) : Prop :=
  ∃ conn c, connections w !! a = Some conn ∧ current_state_ conn = instance c.

End tcp.

(** ** [chatbot.h] *)

Module chat.

(** [struct Patient].  The two [int]s are only stored and printed, never
    computed with, so they are kept as integers. *)
Record Patient : Type := {
  name : string;
  address : string;
  age : Z;
  height : Z;
}.

(** The concrete state classes; as in [tcp], a [State*] is null or the
    address of the function-local static of one [instance()]. *)
Inductive StateClass : Type :=
  | StartState | MainMenuState
  | CollectNameState | CollectAddressState | CollectAgeState | CollectHeightState
  | EditNameState | EditAddressState | EditAgeState | EditHeightState
  | ConfirmInfoState | EditOptionsState | FinishedState.

Global Instance StateClass_eq_dec : EqDecision StateClass.
Proof. solve_decision. Defined.

(** [C::instance()]: [static C state; return &state;] *)
Definition instance (c : StateClass) : option StateClass := Some c.

(** The data members of [ChatBot]. *)
Record ChatBot : Type := {
  current_state_ : option StateClass;
  patient_ : Patient;
}.

(** The requests [ChatBot] forwards to its current state. *)
Inductive Request : Type := prompt_user | process_input.

(** A chatbot whose current state is the instance of class [c], with
    patient record [p]. *)
Definition bot_in (c : StateClass) (p : Patient) : ChatBot :=
  {| current_state_ := instance c; patient_ := p |}.

(** The selections a menu state acts on: the [case] labels of the [switch]
    in its [process_input] (the other states have no menu). *)
Definition menu_options (c : StateClass) : list Z :=
  match c with
  | MainMenuState => [1; 2]
  | ConfirmInfoState => [1; 2]
  | EditOptionsState => [1; 2; 3; 4; 5]
  | _ => []
  end.

(** The states [process_input] can leave a chatbot in, for each class of
    the current state: the arguments of the calls of [change_state] in the
    handler, and the state itself where a path through the handler makes no
    call. *)
Definition successors (c : StateClass) : list StateClass :=
  match c with
  | StartState => [MainMenuState]
  | MainMenuState => [CollectNameState; FinishedState; MainMenuState]
  | CollectNameState => [CollectAddressState]
  | CollectAddressState => [CollectAgeState]
  | CollectAgeState => [CollectHeightState]
  | CollectHeightState => [ConfirmInfoState]
  | EditNameState | EditAddressState | EditAgeState | EditHeightState =>
      [EditOptionsState]
  | ConfirmInfoState => [EditOptionsState; MainMenuState; ConfirmInfoState]
  | EditOptionsState =>
      [EditNameState; EditAddressState; EditAgeState; EditHeightState;
       ConfirmInfoState; EditOptionsState]
  | FinishedState => [FinishedState]
  end.

(** The states a chatbot can be in while the [age] of its patient is still
    what the storage held when the chatbot was constructed: the states not
    behind CollectAge.  For [height], CollectHeight is one more. *)
Definition age_may_be_unwritten (c : StateClass) : bool :=
  match c with
  | StartState | MainMenuState | CollectNameState | CollectAddressState
  | CollectAgeState | FinishedState => true
  | _ => false
  end.

Definition height_may_be_unwritten (c : StateClass) : bool :=
  match c with
  | CollectHeightState => true
  | _ => age_may_be_unwritten c
  end.

(** Two chatbots in the same state whose patient records differ at most in
    an int that may not have been written yet. *)
Definition same_where_written (b b' : ChatBot) : Prop :=
  ∃ c p p',
    b = bot_in c p ∧ b' = bot_in c p' ∧
    name p = name p' ∧ address p = address p' ∧
    (age_may_be_unwritten c = false → age p = age p') ∧
    (height_may_be_unwritten c = false → height p = height p').

Section with_cin.
Context {istream : Type} `{!std.IStream istream}.

(** The chatbots in memory, what remains of [std::cin] and the text written
    to [std::cout]. *)
Record world : Type := {
  bots : gmap addr ChatBot;
  cin : istream;
  cout : std.ostream;
}.

Definition set_bots (f : gmap addr ChatBot → gmap addr ChatBot) (w : world) : world :=
  {| bots := f (bots w); cin := cin w; cout := cout w |}.

(** [std::cout << s] *)
Definition cout_put (s : string) : M world unit :=
  modify (λ w, {| bots := bots w; cin := cin w; cout := cout w +:+ s |}).

(** [getline(std::cin, line)] on a fresh [line]; returns [line]. *)
Definition cin_getline : M world string :=
  λ w, let (line, rest) := std.getline (cin w) in
       Returned line {| bots := bots w; cin := rest; cout := cout w |}.

(** [std::cin >> v] on a variable holding [init]; returns [v]. *)
Definition cin_extract_int (init : option Z) : M world Z :=
  λ w, let (v, rest) := std.extract_int init (cin w) in
       Returned v {| bots := bots w; cin := rest; cout := cout w |}.

(** [std::cin.ignore(std::numeric_limits<std::streamsize>::max(), '\n')] *)
Definition cin_ignore : M world unit :=
  modify (λ w, {| bots := bots w; cin := std.ignore_line (cin w); cout := cout w |}).

(** An assignment to a data member of the chatbot at [this]. *)
Definition update_bot (this : addr) (f : ChatBot → ChatBot) : M world unit :=
  bot ← load bots this;
  modify (set_bots <[this := f bot]>).

(** [void ChatBot::change_state(State* state)] *)
Definition ChatBot_change_state (this : addr) (state : option StateClass)
    : M world unit :=
  assert (to_bool state) "state";;
  update_bot this (λ b, {| current_state_ := state; patient_ := patient_ b |}).

(** [void State::change_state(ChatBot* bot, State* state)] *)
Definition change_state (bot : option addr) (state : option StateClass)
    : M world unit :=
  assert (to_bool bot) "bot";;
  arrow bot (λ this, ChatBot_change_state this state).

(** [State::set_patient_name] and its siblings: [bot->patient_.f = v]. *)
Definition set_patient_name (bot : option addr) (v : string) : M world unit :=
  arrow bot (λ this, update_bot this (λ b,
    {| current_state_ := current_state_ b;
       patient_ := {| name := v; address := address (patient_ b);
                      age := age (patient_ b); height := height (patient_ b) |} |})).

Definition set_patient_address (bot : option addr) (v : string) : M world unit :=
  arrow bot (λ this, update_bot this (λ b,
    {| current_state_ := current_state_ b;
       patient_ := {| name := name (patient_ b); address := v;
                      age := age (patient_ b); height := height (patient_ b) |} |})).

Definition set_patient_age (bot : option addr) (v : Z) : M world unit :=
  arrow bot (λ this, update_bot this (λ b,
    {| current_state_ := current_state_ b;
       patient_ := {| name := name (patient_ b); address := address (patient_ b);
                      age := v; height := height (patient_ b) |} |})).

Definition set_patient_height (bot : option addr) (v : Z) : M world unit :=
  arrow bot (λ this, update_bot this (λ b,
    {| current_state_ := current_state_ b;
       patient_ := {| name := name (patient_ b); address := address (patient_ b);
                      age := age (patient_ b); height := v |} |})).

(** [const Patient& ChatBot::get_patient_info() const] *)
Definition get_patient_info (this : addr) : M world Patient :=
  bot ← load bots this;
  mret (patient_ bot).

(** [void clear_screen()] *)
Fixpoint clear_screen_loop (n : nat) : M world unit :=
  match n with
  | O => mret tt
  | S n' => cout_put std.newline;; clear_screen_loop n'
  end.

Definition clear_screen : M world unit :=
  clear_screen_loop 100;;
  cout_put std.endl.

(** Default handlers of the base class [State]. *)
Definition State_prompt_user (bot : option addr) : M world unit :=
  cout_put "Error: State does not implement State::prompt_user";;
  cout_put std.endl.

Definition State_process_input (bot : option addr) : M world unit :=
  cout_put "Error: State does not implement State::process_input";;
  cout_put std.endl.

(** Handlers of the concrete states, in the order of the source. *)
Definition StartState_prompt_user (bot : option addr) : M world unit :=
  clear_screen;;
  cout_put ("Welcome" +:+ std.newlines 5 +:+ "Press enter to start");;
  cout_put std.endl.

Definition StartState_process_input (bot : option addr) : M world unit :=
  line ← cin_getline;
  cout_put "Contents: (";; cout_put line;; cout_put ")";; cout_put std.endl;;
  change_state bot (instance MainMenuState).

Definition select_prompt : string :=
  "Type a number according to your selection and press enter" +:+ std.newline.

Definition MainMenuState_prompt_user (bot : option addr) : M world unit :=
  clear_screen;;
  cout_put ("Main Menu" +:+ std.newlines 5);;
  cout_put ("1. Add Patient" +:+ std.newline +:+ "2. Exit" +:+ std.newlines 3);;
  cout_put select_prompt;; cout_put std.endl.

Definition MainMenuState_process_input (bot : option addr) : M world unit :=
  in_ ← cin_extract_int None;
  cin_ignore;;
  match in_ with
  | 1 => change_state bot (instance CollectNameState)
  | 2 => change_state bot (instance FinishedState)
  | _ => mret tt
  end.

Definition CollectNameState_prompt_user (bot : option addr) : M world unit :=
  clear_screen;;
  cout_put ("Add Patient Name" +:+ std.newlines 6);;
  cout_put ("Type your name and press enter" +:+ std.newline);;
  cout_put std.endl.

Definition CollectNameState_process_input (bot : option addr) : M world unit :=
  name ← cin_getline;
  set_patient_name bot name;;
  change_state bot (instance CollectAddressState).

Definition CollectAddressState_prompt_user (bot : option addr) : M world unit :=
  clear_screen;;
  cout_put ("Add Patient Address" +:+ std.newlines 6);;
  cout_put ("Type your address and press enter" +:+ std.newline);;
  cout_put std.endl.

Definition CollectAddressState_process_input (bot : option addr) : M world unit :=
  address ← cin_getline;
  set_patient_address bot address;;
  change_state bot (instance CollectAgeState).

Definition CollectAgeState_prompt_user (bot : option addr) : M world unit :=
  clear_screen;;
  cout_put ("Add Patient Age" +:+ std.newlines 6);;
  cout_put ("Type your age and press enter" +:+ std.newline);;
  cout_put std.endl.

Definition CollectAgeState_process_input (bot : option addr) : M world unit :=
  age ← cin_extract_int (Some 0);
  cin_ignore;;
  set_patient_age bot age;;
  change_state bot (instance CollectHeightState).

Definition CollectHeightState_prompt_user (bot : option addr) : M world unit :=
  clear_screen;;
  cout_put ("Add Patient Height" +:+ std.newlines 6);;
  cout_put ("Type your height and press enter" +:+ std.newline);;
  cout_put std.endl.

Definition CollectHeightState_process_input (bot : option addr) : M world unit :=
  height ← cin_extract_int (Some 0);
  cin_ignore;;
  set_patient_height bot height;;
  change_state bot (instance ConfirmInfoState).

Definition EditNameState_prompt_user (bot : option addr) : M world unit :=
  clear_screen;;
  cout_put ("Edit Patient Name" +:+ std.newlines 6);;
  cout_put ("Type your name and press enter" +:+ std.newline);;
  cout_put std.endl.

Definition EditNameState_process_input (bot : option addr) : M world unit :=
  name ← cin_getline;
  set_patient_name bot name;;
  change_state bot (instance EditOptionsState).

Definition EditAddressState_prompt_user (bot : option addr) : M world unit :=
  clear_screen;;
  cout_put ("Edit Patient Address" +:+ std.newlines 6);;
  cout_put ("Type your address and press enter" +:+ std.newline);;
  cout_put std.endl.

Definition EditAddressState_process_input (bot : option addr) : M world unit :=
  address ← cin_getline;
  set_patient_address bot address;;
  change_state bot (instance EditOptionsState).

Definition EditAgeState_prompt_user (bot : option addr) : M world unit :=
  clear_screen;;
  cout_put ("Edit Patient Age" +:+ std.newlines 6);;
  cout_put ("Type your age and press enter" +:+ std.newline);;
  cout_put std.endl.

Definition EditAgeState_process_input (bot : option addr) : M world unit :=
  age ← cin_extract_int (Some 0);
  cin_ignore;;
  set_patient_age bot age;;
  change_state bot (instance EditOptionsState).

Definition EditHeightState_prompt_user (bot : option addr) : M world unit :=
  clear_screen;;
  cout_put ("Edit Patient Height" +:+ std.newlines 6);;
  cout_put ("Type your height and press enter" +:+ std.newline);;
  cout_put std.endl.

Definition EditHeightState_process_input (bot : option addr) : M world unit :=
  height ← cin_extract_int (Some 0);
  cin_ignore;;
  set_patient_height bot height;;
  change_state bot (instance EditOptionsState).

Definition ConfirmInfoState_prompt_user (bot : option addr) : M world unit :=
  clear_screen;;
  patient ← arrow bot get_patient_info;
  cout_put ("Confirm Info is Correct" +:+ std.newlines 3);;
  cout_put "Patient Name: ";; cout_put (name patient);; cout_put std.newline;;
  cout_put "Patient Address: ";; cout_put (address patient);; cout_put std.newline;;
  cout_put "Patient Age: ";; cout_put (pretty (age patient));; cout_put std.newline;;
  cout_put "Patient Height: ";; cout_put (pretty (height patient));;
  cout_put (std.newlines 3);;
  cout_put ("1. Edit Patient Info" +:+ std.newline +:+
            "2. Save and Return to Menu" +:+ std.newlines 3);;
  cout_put select_prompt;; cout_put std.endl.

Definition ConfirmInfoState_process_input (bot : option addr) : M world unit :=
  in_ ← cin_extract_int None;
  cin_ignore;;
  match in_ with
  | 1 => change_state bot (instance EditOptionsState)
  | 2 => change_state bot (instance MainMenuState)
  | _ => mret tt
  end.

Definition EditOptionsState_prompt_user (bot : option addr) : M world unit :=
  clear_screen;;
  cout_put ("Edit Patient Info" +:+ std.newlines 5);;
  cout_put ("1. Edit Name" +:+ std.newline +:+ "2. Edit Address" +:+ std.newline +:+
            "3. Edit Age" +:+ std.newline +:+ "4. Edit Height" +:+ std.newline +:+
            "5. Save and Continue" +:+ std.newlines 3);;
  cout_put select_prompt;; cout_put std.endl.

Definition EditOptionsState_process_input (bot : option addr) : M world unit :=
  in_ ← cin_extract_int None;
  cin_ignore;;
  match in_ with
  | 1 => change_state bot (instance EditNameState)
  | 2 => change_state bot (instance EditAddressState)
  | 3 => change_state bot (instance EditAgeState)
  | 4 => change_state bot (instance EditHeightState)
  | 5 => change_state bot (instance ConfirmInfoState)
  | _ => mret tt
  end.

Definition FinishedState_prompt_user (bot : option addr) : M world unit :=
  mret tt.

Definition FinishedState_process_input (bot : option addr) : M world unit :=
  mret tt.

(** The virtual member functions a class declares with [override]; a slot
    left empty is inherited from [State]. *)
Record overriders : Type := {
  o_prompt_user : option (option addr → M world unit);
  o_process_input : option (option addr → M world unit);
}.

(** The class definitions of lines 79-195. *)
Definition declared (c : StateClass) : overriders :=
  match c with
  | StartState =>
      {| o_prompt_user := Some StartState_prompt_user;
         o_process_input := Some StartState_process_input |}
  | MainMenuState =>
      {| o_prompt_user := Some MainMenuState_prompt_user;
         o_process_input := Some MainMenuState_process_input |}
  | CollectNameState =>
      {| o_prompt_user := Some CollectNameState_prompt_user;
         o_process_input := Some CollectNameState_process_input |}
  | CollectAddressState =>
      {| o_prompt_user := Some CollectAddressState_prompt_user;
         o_process_input := Some CollectAddressState_process_input |}
  | CollectAgeState =>
      {| o_prompt_user := Some CollectAgeState_prompt_user;
         o_process_input := Some CollectAgeState_process_input |}
  | CollectHeightState =>
      {| o_prompt_user := Some CollectHeightState_prompt_user;
         o_process_input := Some CollectHeightState_process_input |}
  | EditNameState =>
      {| o_prompt_user := Some EditNameState_prompt_user;
         o_process_input := Some EditNameState_process_input |}
  | EditAddressState =>
      {| o_prompt_user := Some EditAddressState_prompt_user;
         o_process_input := Some EditAddressState_process_input |}
  | EditAgeState =>
      {| o_prompt_user := Some EditAgeState_prompt_user;
         o_process_input := Some EditAgeState_process_input |}
  | EditHeightState =>
      {| o_prompt_user := Some EditHeightState_prompt_user;
         o_process_input := Some EditHeightState_process_input |}
  | ConfirmInfoState =>
      {| o_prompt_user := Some ConfirmInfoState_prompt_user;
         o_process_input := Some ConfirmInfoState_process_input |}
  | EditOptionsState =>
      {| o_prompt_user := Some EditOptionsState_prompt_user;
         o_process_input := Some EditOptionsState_process_input |}
  | FinishedState =>
      {| o_prompt_user := Some FinishedState_prompt_user;
         o_process_input := Some FinishedState_process_input |}
  end.

(** Virtual call [state->r(bot)] on an object of dynamic class [c]. *)
Definition virtual_call (c : StateClass) (r : Request) (bot : option addr)
    : M world unit :=
  match r with
  | prompt_user => default State_prompt_user (o_prompt_user (declared c)) bot
  | process_input => default State_process_input (o_process_input (declared c)) bot
  end.

(** Whether class [c] overrides the handler of request [r]. *)
Definition overrides (c : StateClass) (r : Request) : bool :=
  match r with
  | prompt_user => bool_decide (is_Some (o_prompt_user (declared c)))
  | process_input => bool_decide (is_Some (o_process_input (declared c)))
  end.

(** The forwarding member functions of [ChatBot], lines 53-54:
    [void r() { current_state_->r(this); }] *)
Definition request (this : addr) (r : Request) : M world unit :=
  bot ← load bots this;
  arrow (current_state_ bot) (λ c, virtual_call c r (Some this)).

(** [bool ChatBot::running() const] *)
Definition running (this : addr) : M world bool :=
  bot ← load bots this;
  mret (bool_decide (current_state_ bot ≠ instance FinishedState)).

(** [ChatBot::ChatBot()], for the object under construction at [this].
    [current_state_{}] is null and [patient_] is default-initialised: its
    strings are empty and its two ints keep what the storage held, [age0]
    and [height0]. *)
Definition ChatBot_ctor (this : addr) (age0 height0 : Z) : M world unit :=
  modify (set_bots
    <[this := {| current_state_ := nullptr;
                 patient_ := {| name := EmptyString; address := EmptyString;
                                age := age0; height := height0 |} |}]>);;
  ChatBot_change_state this (instance StartState).

(** The loop of [run_chat_demo] on the chatbot at [this], cut after [fuel]
    iterations: [while (bot.running()) { bot.prompt_user(); bot.process_input(); }].
    Returns whether the loop was left because [running()] was false. *)
Fixpoint demo_loop (fuel : nat) (this : addr) : M world bool :=
  match fuel with
  | O => mret false
  | S fuel' =>
      go_on ← running this;
      if go_on : bool
      then request this prompt_user;; request this process_input;;
           demo_loop fuel' this
      else mret true
  end.

(** A client driving the chatbot at [this] with a sequence of requests. *)
Fixpoint requests (this : addr) (rs : list Request) : M world unit :=
  match rs with
  | [] => mret tt
  | r :: rs' => request this r;; requests this rs'
  end.

(** [void run_chat_demo()], with the loop cut after [fuel] iterations.
    The chatbot is a local object, here at address [this]; it is destroyed
    when the function returns.  Returns whether the function returned. *)
Definition run_chat_demo (fuel : nat) (this : addr) (age0 height0 : Z)
    : M world bool :=
  ChatBot_ctor this age0 height0;;
  finished ← demo_loop fuel this;
  if finished : bool
  then modify (set_bots (delete this));; mret true
  else mret false.

End with_cin.
Global Arguments world : clear implicits.
Global Arguments overriders istream : clear implicits.

End chat.

(** ** [nosingleton.h] *)

Module nosingleton.

(** [enum class StateName] *)
Module StateName.
Inductive t : Type :=
  | StartState | MainMenuState
  | CollectNameState | CollectAddressState | CollectAgeState | CollectHeightState
  | EditNameState | EditAddressState | EditAgeState | EditHeightState
  | ConfirmInfoState | EditOptionsState | FinishedState.

Global Instance eq_dec : EqDecision t.
Proof. solve_decision. Defined.

(** The enumerators in order; their positions are the underlying values. *)
Definition enumerators : list t :=
  [StartState; MainMenuState; CollectNameState; CollectAddressState;
   CollectAgeState; CollectHeightState; EditNameState; EditAddressState;
   EditAgeState; EditHeightState; ConfirmInfoState; EditOptionsState;
   FinishedState].

Definition underlying (n : t) : nat :=
  match n with
  | StartState => 0 | MainMenuState => 1 | CollectNameState => 2
  | CollectAddressState => 3 | CollectAgeState => 4 | CollectHeightState => 5
  | EditNameState => 6 | EditAddressState => 7 | EditAgeState => 8
  | EditHeightState => 9 | ConfirmInfoState => 10 | EditOptionsState => 11
  | FinishedState => 12
  end%nat.

Global Program Instance countable : Countable t :=
  inj_countable' underlying (λ i, default StartState (enumerators !! i)) _.
Next Obligation. by intros []. Qed.
End StateName.

(** [struct Patient].  The two [int]s are only stored and printed, never
    computed with, so they are kept as integers. *)
Record Patient : Type := {
  name : string;
  address : string;
  age : Z;
  height : Z;
}.

(** The concrete state classes. *)
Inductive StateClass : Type :=
  | StartState | MainMenuState
  | CollectNameState | CollectAddressState | CollectAgeState | CollectHeightState
  | EditNameState | EditAddressState | EditAgeState | EditHeightState
  | ConfirmInfoState | EditOptionsState | FinishedState.

(** The state objects are the data members of a [StateSet], lines 264-276. *)
Inductive member : Type :=
  | start_state_ | main_menu_state_
  | collect_name_state_ | collect_address_state_ | collect_age_state_
  | collect_height_state_
  | edit_name_state_ | edit_address_state_ | edit_age_state_ | edit_height_state_
  | confirm_info_state_ | edit_options_state_ | finished_state_.

Global Instance member_eq_dec : EqDecision member.
Proof. solve_decision. Defined.

(** The declared class of each member. *)
Definition class_of (m : member) : StateClass :=
  match m with
  | start_state_ => StartState
  | main_menu_state_ => MainMenuState
  | collect_name_state_ => CollectNameState
  | collect_address_state_ => CollectAddressState
  | collect_age_state_ => CollectAgeState
  | collect_height_state_ => CollectHeightState
  | edit_name_state_ => EditNameState
  | edit_address_state_ => EditAddressState
  | edit_age_state_ => EditAgeState
  | edit_height_state_ => EditHeightState
  | confirm_info_state_ => ConfirmInfoState
  | edit_options_state_ => EditOptionsState
  | finished_state_ => FinishedState
  end.

(** A [State*] is null or the address of a state object: the member [m] of
    the [StateSet] at address [s], written [Some (s, m)]. *)
Abbreviation State_ptr := (option (addr * member)).

(** The data members of [StateSet]: the map [states_]; the state objects
    themselves carry no data. *)
Record StateSet : Type := {
  states_ : gmap StateName.t State_ptr;
}.

(** The data members of [ChatBot]. *)
Record ChatBot : Type := {
  current_state_ : State_ptr;
  state_set_ : option addr;
  patient_ : Patient;
}.

(** The requests [ChatBot] forwards to its current state. *)
Inductive Request : Type := prompt_user | process_input.

Section with_cin.
Context {istream : Type} `{!std.IStream istream}.

(** The chatbots and state sets in memory, what remains of [std::cin] and
    the text written to [std::cout]. *)
Record world : Type := {
  bots : gmap addr ChatBot;
  sets : gmap addr StateSet;
  cin : istream;
  cout : std.ostream;
}.

Definition set_bots (f : gmap addr ChatBot → gmap addr ChatBot) (w : world) : world :=
  {| bots := f (bots w); sets := sets w; cin := cin w; cout := cout w |}.

Definition set_sets (f : gmap addr StateSet → gmap addr StateSet) (w : world) : world :=
  {| bots := bots w; sets := f (sets w); cin := cin w; cout := cout w |}.

(** [std::cout << s] *)
Definition cout_put (s : string) : M world unit :=
  modify (λ w, {| bots := bots w; sets := sets w; cin := cin w;
                  cout := cout w +:+ s |}).

(** [getline(std::cin, line)] on a fresh [line]; returns [line]. *)
Definition cin_getline : M world string :=
  λ w, let (line, rest) := std.getline (cin w) in
       Returned line {| bots := bots w; sets := sets w; cin := rest; cout := cout w |}.

(** [std::cin >> v] on a variable holding [init]; returns [v]. *)
Definition cin_extract_int (init : option Z) : M world Z :=
  λ w, let (v, rest) := std.extract_int init (cin w) in
       Returned v {| bots := bots w; sets := sets w; cin := rest; cout := cout w |}.

(** [std::cin.ignore(std::numeric_limits<std::streamsize>::max(), '\n')] *)
Definition cin_ignore : M world unit :=
  modify (λ w, {| bots := bots w; sets := sets w;
                  cin := std.ignore_line (cin w); cout := cout w |}).

(** [states_[k] = p] in the constructor of the [StateSet] at [this]. *)
Definition states_assign (this : addr) (k : StateName.t) (p : State_ptr)
    : M world unit :=
  set ← load sets this;
  modify (set_sets <[this := {| states_ := <[k := p]> (states_ set) |}]>).

(** [StateSet::StateSet()], for the object under construction at [this]:
    [states_] starts empty, then the body stores the addresses of the
    members.  The thirteen local objects the body declares after the
    assignments (lines 228-240) come into scope only there, are never used
    and are destroyed at the closing brace. *)
Definition StateSet_ctor (this : addr) : M world unit :=
  modify (set_sets <[this := {| states_ := ∅ |}]>);;
  states_assign this StateName.StartState (Some (this, start_state_));;
  states_assign this StateName.MainMenuState (Some (this, main_menu_state_));;
  states_assign this StateName.CollectNameState (Some (this, collect_name_state_));;
  states_assign this StateName.CollectAddressState (Some (this, collect_address_state_));;
  states_assign this StateName.CollectAgeState (Some (this, collect_age_state_));;
  states_assign this StateName.CollectHeightState (Some (this, collect_height_state_));;
  states_assign this StateName.EditNameState (Some (this, edit_name_state_));;
  states_assign this StateName.EditAddressState (Some (this, edit_address_state_));;
  states_assign this StateName.EditAgeState (Some (this, edit_age_state_));;
  states_assign this StateName.EditHeightState (Some (this, edit_height_state_));;
  states_assign this StateName.ConfirmInfoState (Some (this, confirm_info_state_));;
  states_assign this StateName.EditOptionsState (Some (this, edit_options_state_));;
  states_assign this StateName.FinishedState (Some (this, finished_state_)).

(** The member whose address the constructor stores under each name. *)
Definition member_named (name : StateName.t) : member :=
  match name with
  | StateName.StartState => start_state_
  | StateName.MainMenuState => main_menu_state_
  | StateName.CollectNameState => collect_name_state_
  | StateName.CollectAddressState => collect_address_state_
  | StateName.CollectAgeState => collect_age_state_
  | StateName.CollectHeightState => collect_height_state_
  | StateName.EditNameState => edit_name_state_
  | StateName.EditAddressState => edit_address_state_
  | StateName.EditAgeState => edit_age_state_
  | StateName.EditHeightState => edit_height_state_
  | StateName.ConfirmInfoState => confirm_info_state_
  | StateName.EditOptionsState => edit_options_state_
  | StateName.FinishedState => finished_state_
  end.

(** [State* StateSet::get_state(StateName name)]; [iter] is the result of
    [states_.find(name)], [None] standing for [states_.end()]. *)
Definition StateSet_get_state (this : addr) (name : StateName.t)
    : M world State_ptr :=
  set ← load sets this;
  let iter := states_ set !! name in
  assert (bool_decide (is_Some iter)) "iter != states_.end()";;
  state ← arrow iter mret;
  assert (to_bool state) "state";;
  mret state.

(** An assignment to a data member of the chatbot at [this]. *)
Definition update_bot (this : addr) (f : ChatBot → ChatBot) : M world unit :=
  bot ← load bots this;
  modify (set_bots <[this := f bot]>).

(** [void ChatBot::change_state(StateName name)] *)
Definition ChatBot_change_state (this : addr) (name : StateName.t) : M world unit :=
  bot ← load bots this;
  state ← arrow (state_set_ bot) (λ set, StateSet_get_state set name);
  update_bot this (λ b, {| current_state_ := state; state_set_ := state_set_ b;
                           patient_ := patient_ b |});;
  assert (to_bool state) "current_state_".

(** [void State::change_state(ChatBot* bot, StateName name)] *)
Definition change_state (bot : option addr) (name : StateName.t) : M world unit :=
  assert (to_bool bot) "bot";;
  arrow bot (λ this, ChatBot_change_state this name).

(** [State::set_patient_name] and its siblings: [bot->patient_.f = v]. *)
Definition set_patient_name (bot : option addr) (v : string) : M world unit :=
  arrow bot (λ this, update_bot this (λ b,
    {| current_state_ := current_state_ b; state_set_ := state_set_ b;
       patient_ := {| name := v; address := address (patient_ b);
                      age := age (patient_ b); height := height (patient_ b) |} |})).

Definition set_patient_address (bot : option addr) (v : string) : M world unit :=
  arrow bot (λ this, update_bot this (λ b,
    {| current_state_ := current_state_ b; state_set_ := state_set_ b;
       patient_ := {| name := name (patient_ b); address := v;
                      age := age (patient_ b); height := height (patient_ b) |} |})).

Definition set_patient_age (bot : option addr) (v : Z) : M world unit :=
  arrow bot (λ this, update_bot this (λ b,
    {| current_state_ := current_state_ b; state_set_ := state_set_ b;
       patient_ := {| name := name (patient_ b); address := address (patient_ b);
                      age := v; height := height (patient_ b) |} |})).

Definition set_patient_height (bot : option addr) (v : Z) : M world unit :=
  arrow bot (λ this, update_bot this (λ b,
    {| current_state_ := current_state_ b; state_set_ := state_set_ b;
       patient_ := {| name := name (patient_ b); address := address (patient_ b);
                      age := age (patient_ b); height := v |} |})).

(** [const Patient& ChatBot::get_patient_info() const] *)
Definition get_patient_info (this : addr) : M world Patient :=
  bot ← load bots this;
  mret (patient_ bot).

(** [void clear_screen()] *)
Fixpoint clear_screen_loop (n : nat) : M world unit :=
  match n with
  | O => mret tt
  | S n' => cout_put std.newline;; clear_screen_loop n'
  end.

Definition clear_screen : M world unit :=
  clear_screen_loop 100;;
  cout_put std.endl.

(** Default handlers of the base class [State]. *)
Definition State_prompt_user (bot : option addr) : M world unit :=
  cout_put "Error: State does not implement State::prompt_user";;
  cout_put std.endl.

Definition State_process_input (bot : option addr) : M world unit :=
  cout_put "Error: State does not implement State::process_input";;
  cout_put std.endl.

(** Handlers of the concrete states, in the order of the source. *)
Definition StartState_prompt_user (bot : option addr) : M world unit :=
  clear_screen;;
  cout_put ("Welcome" +:+ std.newlines 5 +:+ "Press enter to start");;
  cout_put std.endl.

Definition StartState_process_input (bot : option addr) : M world unit :=
  line ← cin_getline;
  cout_put "Contents: (";; cout_put line;; cout_put ")";; cout_put std.endl;;
  change_state bot StateName.MainMenuState.

Definition select_prompt : string :=
  "Type a number according to your selection and press enter" +:+ std.newline.

Definition MainMenuState_prompt_user (bot : option addr) : M world unit :=
  clear_screen;;
  cout_put ("Main Menu" +:+ std.newlines 5);;
  cout_put ("1. Add Patient" +:+ std.newline +:+ "2. Exit" +:+ std.newlines 3);;
  cout_put select_prompt;; cout_put std.endl.

Definition MainMenuState_process_input (bot : option addr) : M world unit :=
  in_ ← cin_extract_int None;
  cin_ignore;;
  match in_ with
  | 1 => change_state bot StateName.CollectNameState
  | 2 => change_state bot StateName.FinishedState
  | _ => mret tt
  end.

Definition CollectNameState_prompt_user (bot : option addr) : M world unit :=
  clear_screen;;
  cout_put ("Add Patient Name" +:+ std.newlines 6);;
  cout_put ("Type your name and press enter" +:+ std.newline);;
  cout_put std.endl.

Definition CollectNameState_process_input (bot : option addr) : M world unit :=
  name ← cin_getline;
  set_patient_name bot name;;
  change_state bot StateName.CollectAddressState.

Definition CollectAddressState_prompt_user (bot : option addr) : M world unit :=
  clear_screen;;
  cout_put ("Add Patient Address" +:+ std.newlines 6);;
  cout_put ("Type your address and press enter" +:+ std.newline);;
  cout_put std.endl.

Definition CollectAddressState_process_input (bot : option addr) : M world unit :=
  address ← cin_getline;
  set_patient_address bot address;;
  change_state bot StateName.CollectAgeState.

Definition CollectAgeState_prompt_user (bot : option addr) : M world unit :=
  clear_screen;;
  cout_put ("Add Patient Age" +:+ std.newlines 6);;
  cout_put ("Type your age and press enter" +:+ std.newline);;
  cout_put std.endl.

Definition CollectAgeState_process_input (bot : option addr) : M world unit :=
  age ← cin_extract_int (Some 0);
  cin_ignore;;
  set_patient_age bot age;;
  change_state bot StateName.CollectHeightState.

Definition CollectHeightState_prompt_user (bot : option addr) : M world unit :=
  clear_screen;;
  cout_put ("Add Patient Height" +:+ std.newlines 6);;
  cout_put ("Type your height and press enter" +:+ std.newline);;
  cout_put std.endl.

Definition CollectHeightState_process_input (bot : option addr) : M world unit :=
  height ← cin_extract_int (Some 0);
  cin_ignore;;
  set_patient_height bot height;;
  change_state bot StateName.ConfirmInfoState.

Definition EditNameState_prompt_user (bot : option addr) : M world unit :=
  clear_screen;;
  cout_put ("Edit Patient Name" +:+ std.newlines 6);;
  cout_put ("Type your name and press enter" +:+ std.newline);;
  cout_put std.endl.

Definition EditNameState_process_input (bot : option addr) : M world unit :=
  name ← cin_getline;
  set_patient_name bot name;;
  change_state bot StateName.EditOptionsState.

Definition EditAddressState_prompt_user (bot : option addr) : M world unit :=
  clear_screen;;
  cout_put ("Edit Patient Address" +:+ std.newlines 6);;
  cout_put ("Type your address and press enter" +:+ std.newline);;
  cout_put std.endl.

Definition EditAddressState_process_input (bot : option addr) : M world unit :=
  address ← cin_getline;
  set_patient_address bot address;;
  change_state bot StateName.EditOptionsState.

Definition EditAgeState_prompt_user (bot : option addr) : M world unit :=
  clear_screen;;
  cout_put ("Edit Patient Age" +:+ std.newlines 6);;
  cout_put ("Type your age and press enter" +:+ std.newline);;
  cout_put std.endl.

Definition EditAgeState_process_input (bot : option addr) : M world unit :=
  age ← cin_extract_int (Some 0);
  cin_ignore;;
  set_patient_age bot age;;
  change_state bot StateName.EditOptionsState.

Definition EditHeightState_prompt_user (bot : option addr) : M world unit :=
  clear_screen;;
  cout_put ("Edit Patient Height" +:+ std.newlines 6);;
  cout_put ("Type your height and press enter" +:+ std.newline);;
  cout_put std.endl.

Definition EditHeightState_process_input (bot : option addr) : M world unit :=
  height ← cin_extract_int (Some 0);
  cin_ignore;;
  set_patient_height bot height;;
  change_state bot StateName.EditOptionsState.

Definition ConfirmInfoState_prompt_user (bot : option addr) : M world unit :=
  clear_screen;;
  patient ← arrow bot get_patient_info;
  cout_put ("Confirm Info is Correct" +:+ std.newlines 3);;
  cout_put "Patient Name: ";; cout_put (name patient);; cout_put std.newline;;
  cout_put "Patient Address: ";; cout_put (address patient);; cout_put std.newline;;
  cout_put "Patient Age: ";; cout_put (pretty (age patient));; cout_put std.newline;;
  cout_put "Patient Height: ";; cout_put (pretty (height patient));;
  cout_put (std.newlines 3);;
  cout_put ("1. Edit Patient Info" +:+ std.newline +:+
            "2. Save and Return to Menu" +:+ std.newlines 3);;
  cout_put select_prompt;; cout_put std.endl.

Definition ConfirmInfoState_process_input (bot : option addr) : M world unit :=
  in_ ← cin_extract_int None;
  cin_ignore;;
  match in_ with
  | 1 => change_state bot StateName.EditOptionsState
  | 2 => change_state bot StateName.MainMenuState
  | _ => mret tt
  end.

Definition EditOptionsState_prompt_user (bot : option addr) : M world unit :=
  clear_screen;;
  cout_put ("Edit Patient Info" +:+ std.newlines 5);;
  cout_put ("1. Edit Name" +:+ std.newline +:+ "2. Edit Address" +:+ std.newline +:+
            "3. Edit Age" +:+ std.newline +:+ "4. Edit Height" +:+ std.newline +:+
            "5. Save and Continue" +:+ std.newlines 3);;
  cout_put select_prompt;; cout_put std.endl.

Definition EditOptionsState_process_input (bot : option addr) : M world unit :=
  in_ ← cin_extract_int None;
  cin_ignore;;
  match in_ with
  | 1 => change_state bot StateName.EditNameState
  | 2 => change_state bot StateName.EditAddressState
  | 3 => change_state bot StateName.EditAgeState
  | 4 => change_state bot StateName.EditHeightState
  | 5 => change_state bot StateName.ConfirmInfoState
  | _ => mret tt
  end.

Definition FinishedState_prompt_user (bot : option addr) : M world unit :=
  mret tt.

Definition FinishedState_process_input (bot : option addr) : M world unit :=
  mret tt.

(** The virtual member functions a class declares with [override]; a slot
    left empty is inherited from [State]. *)
Record overriders : Type := {
  o_prompt_user : option (option addr → M world unit);
  o_process_input : option (option addr → M world unit);
}.

(** The class definitions of lines 101-204. *)
Definition declared (c : StateClass) : overriders :=
  match c with
  | StartState =>
      {| o_prompt_user := Some StartState_prompt_user;
         o_process_input := Some StartState_process_input |}
  | MainMenuState =>
      {| o_prompt_user := Some MainMenuState_prompt_user;
         o_process_input := Some MainMenuState_process_input |}
  | CollectNameState =>
      {| o_prompt_user := Some CollectNameState_prompt_user;
         o_process_input := Some CollectNameState_process_input |}
  | CollectAddressState =>
      {| o_prompt_user := Some CollectAddressState_prompt_user;
         o_process_input := Some CollectAddressState_process_input |}
  | CollectAgeState =>
      {| o_prompt_user := Some CollectAgeState_prompt_user;
         o_process_input := Some CollectAgeState_process_input |}
  | CollectHeightState =>
      {| o_prompt_user := Some CollectHeightState_prompt_user;
         o_process_input := Some CollectHeightState_process_input |}
  | EditNameState =>
      {| o_prompt_user := Some EditNameState_prompt_user;
         o_process_input := Some EditNameState_process_input |}
  | EditAddressState =>
      {| o_prompt_user := Some EditAddressState_prompt_user;
         o_process_input := Some EditAddressState_process_input |}
  | EditAgeState =>
      {| o_prompt_user := Some EditAgeState_prompt_user;
         o_process_input := Some EditAgeState_process_input |}
  | EditHeightState =>
      {| o_prompt_user := Some EditHeightState_prompt_user;
         o_process_input := Some EditHeightState_process_input |}
  | ConfirmInfoState =>
      {| o_prompt_user := Some ConfirmInfoState_prompt_user;
         o_process_input := Some ConfirmInfoState_process_input |}
  | EditOptionsState =>
      {| o_prompt_user := Some EditOptionsState_prompt_user;
         o_process_input := Some EditOptionsState_process_input |}
  | FinishedState =>
      {| o_prompt_user := Some FinishedState_prompt_user;
         o_process_input := Some FinishedState_process_input |}
  end.

(** Virtual call [state->r(bot)] on an object of dynamic class [c]. *)
Definition virtual_call (c : StateClass) (r : Request) (bot : option addr)
    : M world unit :=
  match r with
  | prompt_user => default State_prompt_user (o_prompt_user (declared c)) bot
  | process_input => default State_process_input (o_process_input (declared c)) bot
  end.

(** Whether class [c] overrides the handler of request [r]. *)
Definition overrides (c : StateClass) (r : Request) : bool :=
  match r with
  | prompt_user => bool_decide (is_Some (o_prompt_user (declared c)))
  | process_input => bool_decide (is_Some (o_process_input (declared c)))
  end.

(** The forwarding member functions of [ChatBot], lines 78-79:
    [void r() { current_state_->r(this); }].  The state object called is
    the member [m] of the state set at [s], which has to be alive. *)
Definition request (this : addr) (r : Request) : M world unit :=
  bot ← load bots this;
  arrow (current_state_ bot) (λ '(s, m),
    load sets s;;
    virtual_call (class_of m) r (Some this)).

(** [bool ChatBot::running() const] *)
Definition running (this : addr) : M world bool :=
  bot ← load bots this;
  finished ← arrow (state_set_ bot) (λ set,
               StateSet_get_state set StateName.FinishedState);
  mret (bool_decide (current_state_ bot ≠ finished)).

(** [ChatBot::ChatBot(StateSet* state_set)], for the object under
    construction at [this].  [current_state_{}] is null and [patient_] is
    default-initialised: its strings are empty and its two ints keep what
    the storage held, [age0] and [height0]. *)
Definition ChatBot_ctor (this : addr) (state_set : option addr)
    (age0 height0 : Z) : M world unit :=
  modify (set_bots
    <[this := {| current_state_ := nullptr; state_set_ := state_set;
                 patient_ := {| name := EmptyString; address := EmptyString;
                                age := age0; height := height0 |} |}]>);;
  ChatBot_change_state this StateName.StartState.

(** The loop of [run_nosingleton_demo] on the chatbot at [this], cut after
    [fuel] iterations.  Returns whether the loop was left because
    [running()] was false. *)
Fixpoint demo_loop (fuel : nat) (this : addr) : M world bool :=
  match fuel with
  | O => mret false
  | S fuel' =>
      go_on ← running this;
      if go_on : bool
      then request this prompt_user;; request this process_input;;
           demo_loop fuel' this
      else mret true
  end.

(** A client driving the chatbot at [this] with a sequence of requests. *)
Fixpoint requests (this : addr) (rs : list Request) : M world unit :=
  match rs with
  | [] => mret tt
  | r :: rs' => request this r;; requests this rs'
  end.

(** The classes whose [process_input] begins [int in; std::cin >> in;] and
    switches on [in] (lines 315, 505 and 541): [in] has no initialiser. *)
Definition reads_selection (c : StateClass) : bool :=
  match c with
  | MainMenuState | ConfirmInfoState | EditOptionsState => true
  | _ => false
  end.

(** [process_input], sent to the chatbot at [this] in the world [w],
    switches on a value that was read: if the current state is one of the
    menus, the extraction from [std::cin] stores a value into [in]. *)
Definition selection_is_read (this : addr) (w : world) : Prop :=
  ∀ bot s m,
    bots w !! this = Some bot → current_state_ bot = Some (s, m) →
    reads_selection (class_of m) = true →
    std.extraction_writes (cin w).

(** The same along the requests [rs] made to the chatbot at [this]. *)
Fixpoint selections_are_read (this : addr) (rs : list Request) (w : world)
    : Prop :=
  match rs with
  | [] => True
  | r :: rs' =>
      (r = process_input → selection_is_read this w) ∧
      match request this r w with
      | Returned _ w' => selections_are_read this rs' w'
      | Aborted _ => True
      end
  end.

(** The same along the loop of [run_nosingleton_demo]. *)
Fixpoint demo_selections_are_read (fuel : nat) (this : addr) (w : world)
    : Prop :=
  match fuel with
  | O => True
  | S fuel' =>
      match running this w with
      | Returned true w0 =>
          match request this prompt_user w0 with
          | Returned _ w1 =>
              selection_is_read this w1 ∧
              match request this process_input w1 with
              | Returned _ w2 => demo_selections_are_read fuel' this w2
              | Aborted _ => True
              end
          | Aborted _ => True
          end
      | _ => True
      end
  end.

(** The state set at [s] is as its constructor builds it: [states_] maps
    every name to the address of the member of that set the constructor
    stores under it. *)
Definition constructed (w : world) (s : addr) : Prop :=
  ∃ set, sets w !! s = Some set ∧
         ∀ name, states_ set !! name = Some (Some (s, member_named name)).

(** The chatbot at [a] works on the state set at [s], and its current state
    is not null: it is the address of a member of that set. *)
Definition bot_on (s : addr) (bot : ChatBot) : Prop :=
  state_set_ bot = Some s ∧ ∃ m, current_state_ bot = Some (s, m).

Definition built_on (w : world) (s a : addr) : Prop :=
  ∃ bot, bots w !! a = Some bot ∧ bot_on s bot.

(** [void run_nosingleton_demo()], with the loop cut after [fuel]
    iterations.  The state set and the chatbot are local objects, here at
    the addresses [state_set] and [this]; they are destroyed, the chatbot
    first, when the function returns.  Returns whether the function
    returned. *)
Definition run_nosingleton_demo (fuel : nat) (state_set this : addr)
    (age0 height0 : Z) : M world bool :=
  StateSet_ctor state_set;;
  ChatBot_ctor this (Some state_set) age0 height0;;
  finished ← demo_loop fuel this;
  if finished : bool
  then modify (set_bots (delete this));;
       modify (set_sets (delete state_set));;
       mret true
  else mret false.

(** The computation [m] writes to no state set and moves no chatbot to
    another state set: when it returns, every state set is as it was and
    every chatbot has the [state_set_] it had. *)
Definition keeps_state_sets {A} (m : M world A) : Prop :=
  ∀ w x w', m w = Returned x w' →
    sets w' = sets w ∧
    ∀ b, state_set_ <$> bots w' !! b = state_set_ <$> bots w !! b.

End with_cin.
Global Arguments world : clear implicits.
Global Arguments overriders istream : clear implicits.

End nosingleton.

(** ** The two chatbots side by side

    [nosingleton.h] repeats [chatbot.h] with the state objects moved into a
    [StateSet].  Forgetting the state set turns a world of the one into a
    world of the other. *)

Module variants.

Definition to_chat_class (c : nosingleton.StateClass) : chat.StateClass :=
  match c with
  | nosingleton.StartState => chat.StartState
  | nosingleton.MainMenuState => chat.MainMenuState
  | nosingleton.CollectNameState => chat.CollectNameState
  | nosingleton.CollectAddressState => chat.CollectAddressState
  | nosingleton.CollectAgeState => chat.CollectAgeState
  | nosingleton.CollectHeightState => chat.CollectHeightState
  | nosingleton.EditNameState => chat.EditNameState
  | nosingleton.EditAddressState => chat.EditAddressState
  | nosingleton.EditAgeState => chat.EditAgeState
  | nosingleton.EditHeightState => chat.EditHeightState
  | nosingleton.ConfirmInfoState => chat.ConfirmInfoState
  | nosingleton.EditOptionsState => chat.EditOptionsState
  | nosingleton.FinishedState => chat.FinishedState
  end.

Definition to_chat_request (r : nosingleton.Request) : chat.Request :=
  match r with
  | nosingleton.prompt_user => chat.prompt_user
  | nosingleton.process_input => chat.process_input
  end.

Definition to_chat_patient (p : nosingleton.Patient) : chat.Patient :=
  {| chat.name := nosingleton.name p; chat.address := nosingleton.address p;
     chat.age := nosingleton.age p; chat.height := nosingleton.height p |}.

(** The current state becomes the instance of the class of the member it
    points to. *)
Definition to_chat_bot (b : nosingleton.ChatBot) : chat.ChatBot :=
  {| chat.current_state_ :=
       (λ sm : addr * nosingleton.member,
          to_chat_class (nosingleton.class_of sm.2))
         <$> nosingleton.current_state_ b;
     chat.patient_ := to_chat_patient (nosingleton.patient_ b) |}.

Definition to_chat_world {istream : Type} (w : nosingleton.world istream)
    : chat.world istream :=
  {| chat.bots := to_chat_bot <$> nosingleton.bots w;
     chat.cin := nosingleton.cin w;
     chat.cout := nosingleton.cout w |}.

End variants.

(** ** [main.cpp] *)

Module app.

Section with_cin.
Context {istream : Type} `{!std.IStream istream}.

(** What the program shares with its user: [std::cin] and [std::cout]. *)
Record streams : Type := {
  cin : istream;
  cout : std.ostream;
}.

(** [std::cout << s] *)
Definition cout_put (s : string) : M streams unit :=
  modify (λ io, {| cin := cin io; cout := cout io +:+ s |}).

(** A function of namespace [chat] called with no chatbot in memory. *)
Definition in_chat {A} (m : M (chat.world istream) A) : M streams A :=
  λ io, match m {| chat.bots := ∅; chat.cin := cin io; chat.cout := cout io |} with
        | Returned x w => Returned x {| cin := chat.cin w; cout := chat.cout w |}
        | Aborted e => Aborted e
        end.

(** A function of namespace [nosingleton] called with no chatbot and no
    state set in memory. *)
Definition in_nosingleton {A} (m : M (nosingleton.world istream) A)
    : M streams A :=
  λ io, match m {| nosingleton.bots := ∅; nosingleton.sets := ∅;
                   nosingleton.cin := cin io; nosingleton.cout := cout io |} with
        | Returned x w =>
            Returned x {| cin := nosingleton.cin w; cout := nosingleton.cout w |}
        | Aborted e => Aborted e
        end.

(** [void tcp::run_tcp_demo()] *)
Definition run_tcp_demo : M streams unit :=
  cout_put "Sorry, This demo is a work in progress";;
  cout_put std.endl.

(** [bookexample.h] is not part of the sources: [book::run_book_demo()] is
    whatever it is. *)
Variable run_book_demo : M streams unit.

(** The addresses of the local objects of the demos and what their storage
    holds where the patient's two ints will be. *)
Record frame : Type := {
  state_set_at : addr;
  bot_at : addr;
  age0 : Z;
  height0 : Z;
}.

(** In [run_nosingleton_demo] started on the streams [io], every menu
    switches on a value that was read. *)
Definition selections_are_read (fuel : nat) (locals : frame) (io : streams)
    : Prop :=
  match (nosingleton.StateSet_ctor (state_set_at locals);;
         nosingleton.ChatBot_ctor (bot_at locals) (Some (state_set_at locals))
           (age0 locals) (height0 locals))
          {| nosingleton.bots := ∅; nosingleton.sets := ∅;
             nosingleton.cin := cin io; nosingleton.cout := cout io |} with
  | Returned _ w => nosingleton.demo_selections_are_read fuel (bot_at locals) w
  | Aborted _ => True
  end.

(** [int main()], with the loops of the demos cut after [fuel] iterations.
    Returns the value [main] returns, if it returns. *)
Definition main (fuel : nat) (locals : frame) : M streams (option Z) :=
  cout_put ("Choose a demo option" +:+ std.newline +:+ "1. Book Example" +:+
            std.newline +:+ "2. ChatBot" +:+ std.newline +:+ "3. No Singleton");;
  cout_put std.endl;;
  option ← (λ io, let (v, rest) := std.extract_int (Some 0) (cin io) in
                  Returned v {| cin := rest; cout := cout io |});
  modify (λ io, {| cin := std.ignore_line (cin io); cout := cout io |});;
  match option with
  | 1 => run_book_demo;; mret (Some 0)
  | 2 =>
      returned ← in_chat (chat.run_chat_demo fuel (bot_at locals)
                            (age0 locals) (height0 locals));
      mret (if returned : bool then Some 0 else None)
  | 3 =>
      returned ← in_nosingleton
                   (nosingleton.run_nosingleton_demo fuel (state_set_at locals)
                      (bot_at locals) (age0 locals) (height0 locals));
      mret (if returned : bool then Some 0 else None)
  | _ =>
      cout_put "Invalid Option";; cout_put std.endl;;
      mret (Some 0)
  end.

End with_cin.
Global Arguments streams : clear implicits.

End app.

(** ** Sample runs

    Concrete worlds on the console, used to instantiate the theorems. *)

Module sample.

(** The world a computation leaves behind ([w] itself if it aborts). *)
Definition after {W A} (m : M W A) (w : W) : W :=
  match m w with
  | Returned _ w' => w'
  | Aborted _ => w
  end.

(** Lines typed at the keyboard, each followed by Enter. *)
Fixpoint typed_lines (lines : list string) : string :=
  match lines with
  | [] => EmptyString
  | l :: lines' => l +:+ std.newline +:+ typed_lines lines'
  end.

(** A server connection just constructed at address 1. *)
Definition tcp_fresh : tcp.world :=
  after (tcp.TCPConnection_ctor 1 true)
    {| tcp.connections := ∅; tcp.cerr := EmptyString |}.

(** The same connection after [passive_open]: it listens. *)
Definition tcp_listening : tcp.world :=
  after (tcp.request 1 tcp.passive_open) tcp_fresh.

(** The listening connection, and a client connection just constructed at
    address 2. *)
Definition tcp_pair : tcp.world :=
  after (tcp.TCPConnection_ctor 2 false) tcp_listening.

Definition ada : chat.Patient :=
  {| chat.name := "Ada"; chat.address := "1 Main St";
     chat.age := 30; chat.height := 170 |}.

(** A chatbot just constructed at address 1, with [lines] typed. *)
Definition chat_fresh (lines : list string) : chat.world console.t :=
  after (chat.ChatBot_ctor 1 0 0)
    {| chat.bots := ∅; chat.cin := console.typed (typed_lines lines);
       chat.cout := EmptyString |}.

(** Two chatbots just constructed, at addresses 1 and 2, with [lines]
    typed. *)
Definition chat_pair (lines : list string) : chat.world console.t :=
  after (chat.ChatBot_ctor 2 0 0) (chat_fresh lines).

(** A chatbot at address 1 in the state of class [c] with Ada's record,
    with [lines] typed. *)
Definition chat_with_ada (c : chat.StateClass) (lines : list string)
    : chat.world console.t :=
  {| chat.bots := {[1%positive := chat.bot_in c ada]};
     chat.cin := console.typed (typed_lines lines);
     chat.cout := EmptyString |}.

(** As in [run_nosingleton_demo], with a second chatbot on the same state
    set: the state set at address 10, the chatbots at addresses 1 and 2. *)
Definition two_bots : nosingleton.world console.t :=
  after (nosingleton.StateSet_ctor 10;;
         nosingleton.ChatBot_ctor 1 (Some 10%positive) 0 0;;
         nosingleton.ChatBot_ctor 2 (Some 10%positive) 0 0)
    {| nosingleton.bots := ∅; nosingleton.sets := ∅;
       nosingleton.cin := console.typed EmptyString; nosingleton.cout := EmptyString |}.

(** The same two chatbots, with [lines] typed. *)
Definition two_bots_typed (lines : list string) : nosingleton.world console.t :=
  after (nosingleton.StateSet_ctor 10;;
         nosingleton.ChatBot_ctor 1 (Some 10%positive) 0 0;;
         nosingleton.ChatBot_ctor 2 (Some 10%positive) 0 0)
    {| nosingleton.bots := ∅; nosingleton.sets := ∅;
       nosingleton.cin := console.typed (typed_lines lines);
       nosingleton.cout := EmptyString |}.


(** The console with [lines] typed and nothing written yet. *)
Definition at_console (lines : list string) : app.streams console.t :=
  {| app.cin := console.typed (typed_lines lines); app.cout := EmptyString |}.

(** Where the local objects of the demos are, with zeroed storage. *)
Definition locals : app.frame :=
  {| app.state_set_at := 10; app.bot_at := 1; app.age0 := 0; app.height0 := 0 |}.

(** A book demo that does nothing. *)
Definition silent_book_demo : M (app.streams console.t) unit := mret tt.

End sample.

(** * Properties *)

(** ** Running computations *)

Lemma bind_returned {W A B} (m : M W A) (f : A → M W B) w a w' :
  m w = Returned a w' → (m ≫= f) w = f a w'.
Proof. intros E. unfold mbind, M_mbind, M_bind. by rewrite E. Qed.

Lemma load_returned {W T} (objs : W → gmap addr T) a o w :
  objs w !! a = Some o → load objs a w = Returned o w.
Proof. intros E. unfold load. by rewrite E. Qed.

Ltac unfold_M :=
  unfold mbind, M_mbind, M_bind, mret, M_mret, M_ret,
         assert, abort, modify, load, arrow in *.

Section tcp_facts.
Import tcp.

Lemma tcp_change_state_spec w a conn c :
  connections w !! a = Some conn →
  TCPState_change_state (Some a) (instance c) w =
    Returned tt (set_connections
      <[a := {| current_state_ := Some c; is_server_ := is_server_ conn |}]> w).
Proof.
  intros Ha. unfold TCPState_change_state, TCPConnection_change_state.
  unfold_M. cbn. by rewrite Ha.
Qed.


Lemma tcp_request_spec w a conn c r :
  connections w !! a = Some conn →
  current_state_ conn = instance c →
  request a r w = virtual_call c r (Some a) w.
Proof.
  intros Ha Hc. unfold request.
  rewrite (bind_returned _ _ w conn w) by by apply load_returned.
  by rewrite Hc.
Qed.

Lemma tcp_insert_twice w a (x y : TCPConnection) :
  set_connections <[a := y]> (set_connections <[a := x]> w) =
  set_connections <[a := y]> w.
Proof. unfold set_connections; cbn. by rewrite insert_insert_eq. Qed.

Lemma tcp_lookup_set w a x :
  connections (set_connections <[a := x]> w) !! a = Some x.
Proof. cbn. apply lookup_insert_eq. Qed.

(** The transitions the class definitions declare. *)
Lemma tcp_transition w a conn c r c' :
  connections w !! a = Some conn →
  current_state_ conn = instance c →
  (c, r, c') ∈ [ (TCPClosed, active_open, TCPEstablished);
                 (TCPClosed, passive_open, TCPListen);
                 (TCPListen, send, TCPEstablished);
                 (TCPEstablished, close, TCPListen) ] →
  request a r w =
    Returned tt (set_connections
      <[a := {| current_state_ := instance c'; is_server_ := is_server_ conn |}]> w).
Proof.
  intros Ha Hc Hin. rewrite (tcp_request_spec w a conn c r Ha Hc).
  set_unfold in Hin.
  destruct Hin as [[= -> -> ->]|[[= -> -> ->]|[[= -> -> ->]|[[= -> -> ->]|[]]]]].
  all: cbn; unfold_M; cbn; rewrite Ha; cbn; rewrite ?lookup_insert_eq; cbn.
  all: unfold set_connections; cbn; by rewrite ?insert_insert_eq.
Qed.

Lemma tcp_default_handler w a conn c r :
  connections w !! a = Some conn →
  current_state_ conn = instance c →
  overrides c r = false →
  request a r w =
    Returned tt {| connections := connections w;
                   cerr := (cerr w +:+ default_message r) +:+ std.endl |}.
Proof.
  intros Ha Hc Hov. rewrite (tcp_request_spec w a conn c r Ha Hc).
  destruct c, r; try discriminate Hov; reflexivity.
Qed.

Lemma tcp_request_total w a r :
  has_state w a →
  ∃ w', request a r w = Returned tt w' ∧ has_state w' a ∧
        (∀ b, b ≠ a → connections w' !! b = connections w !! b) ∧
        is_server_ <$> connections w' !! a = is_server_ <$> connections w !! a.
Proof.
  intros (conn & c & Ha & Hc).
  destruct (overrides c r) eqn:Hov.
  - rewrite (tcp_request_spec w a conn c r Ha Hc).
    destruct c, r; try discriminate Hov.
    all: cbn; unfold_M; cbn; rewrite ?Ha; cbn; rewrite ?lookup_insert_eq; cbn.
    all: eexists; split; [reflexivity|]; unfold has_state; cbn.
    all: rewrite ?lookup_insert_eq, ?Ha; cbn.
    all: repeat split; eauto using lookup_insert_ne.
    all: intros b Hb; by rewrite !lookup_insert_ne.
  - rewrite (tcp_default_handler w a conn c r Ha Hc Hov).
    eexists; split; [reflexivity|]. unfold has_state; cbn. eauto 10.
Qed.

Lemma tcp_requests_total w a rs :
  has_state w a →
  ∃ w', requests a rs w = Returned tt w' ∧ has_state w' a.
Proof.
  revert w. induction rs as [|r rs IH]; intros w Hw; cbn.
  - by exists w.
  - destruct (tcp_request_total w a r Hw) as (w1 & E1 & Hw1 & _).
    rewrite (bind_returned _ _ _ _ _ E1). by apply IH.
Qed.

Lemma tcp_ctor_spec w a is_server :
  TCPConnection_ctor a is_server w =
    Returned tt (set_connections <[a := connection_in TCPClosed is_server]> w).
Proof.
  unfold TCPConnection_ctor, TCPConnection_change_state. unfold_M. cbn.
  rewrite lookup_insert_eq. cbn. unfold set_connections; cbn.
  by rewrite insert_insert_eq.
Qed.

End tcp_facts.

(** ** The protocol example *)

Section tcp_protocol.
Import tcp.

(** C1: for a connection whose current state is Closed, [passive_open] moves
    it to Listen, then [send] to Established, then [close] back to Listen;
    each request returns, and [is_server_] is never touched. *)
Theorem C1_closed_listen_established_listen w a conn :
  connections w !! a = Some conn →
  current_state_ conn = instance TCPClosed →
  ∃ w1 w2 w3,
    request a passive_open w = Returned tt w1 ∧
    connections w1 !! a = Some (connection_in TCPListen (is_server_ conn)) ∧
    request a send w1 = Returned tt w2 ∧
    connections w2 !! a = Some (connection_in TCPEstablished (is_server_ conn)) ∧
    request a close w2 = Returned tt w3 ∧
    connections w3 !! a = Some (connection_in TCPListen (is_server_ conn)) ∧
    requests a [passive_open; send; close] w = Returned tt w3.
Proof.
  intros Ha Hc.
  assert (request a passive_open w = Returned tt
            (set_connections <[a := connection_in TCPListen (is_server_ conn)]> w))
    as E1 by (apply (tcp_transition w a conn TCPClosed); [done..|set_solver]).
  set (w1 := set_connections _ w) in E1.
  assert (request a send w1 = Returned tt
            (set_connections <[a := connection_in TCPEstablished (is_server_ conn)]> w1))
    as E2.
  { apply (tcp_transition w1 a (connection_in TCPListen (is_server_ conn)) TCPListen);
      [apply tcp_lookup_set|done|set_solver]. }
  set (w2 := set_connections _ w1) in E2.
  assert (request a close w2 = Returned tt
            (set_connections <[a := connection_in TCPListen (is_server_ conn)]> w2))
    as E3.
  { apply (tcp_transition w2 a (connection_in TCPEstablished (is_server_ conn))
             TCPEstablished); [apply tcp_lookup_set|done|set_solver]. }
  set (w3 := set_connections _ w2) in E3.
  exists w1, w2, w3. repeat split; try done; try apply tcp_lookup_set.
  cbn [requests].
  rewrite (bind_returned _ _ _ _ _ E1), (bind_returned _ _ _ _ _ E2),
    (bind_returned _ _ _ _ _ E3). reflexivity.
Qed.

End tcp_protocol.

(** ** The chatbot *)

Section chat_facts.
Context {istream : Type} `{!std.IStream istream}.
Import chat.
Implicit Types (w : world istream) (a : addr) (bot : ChatBot).

Ltac exec :=
  repeat first
    [ progress cbn
    | progress unfold_M
    | progress unfold request, change_state, ChatBot_change_state, update_bot,
        set_patient_name, set_patient_address, set_patient_age,
        set_patient_height, cin_getline, cin_extract_int, cin_ignore,
        cout_put, set_bots, bot_in, instance in *
    | progress unfold
        StartState_process_input, MainMenuState_process_input,
        CollectNameState_process_input, CollectAddressState_process_input,
        CollectAgeState_process_input, CollectHeightState_process_input,
        EditNameState_process_input, EditAddressState_process_input,
        EditAgeState_process_input, EditHeightState_process_input,
        ConfirmInfoState_process_input, EditOptionsState_process_input,
        FinishedState_process_input
    | match goal with H : _ !! _ = Some _ |- _ => rewrite H end
    | match goal with H : std.getline _ = _ |- _ => rewrite H end
    | match goal with H : std.extract_int _ _ = _ |- _ => rewrite H end
    | match goal with H : current_state_ _ = _ |- _ => rewrite H end
    | rewrite lookup_insert_eq
    | rewrite insert_insert_eq ].

Lemma chat_start_input w a bot line rest :
  bots w !! a = Some bot →
  current_state_ bot = instance StartState →
  std.getline (cin w) = (line, rest) →
  request a process_input w = Returned tt
    {| bots := <[a := bot_in MainMenuState (patient_ bot)]> (bots w);
       cin := rest;
       cout := (((cout w +:+ "Contents: (") +:+ line) +:+ ")") +:+ std.endl |}.
Proof. intros Ha Hc Hr. exec. reflexivity. Qed.

(** The three menus: what [process_input] does with the number read. *)
Lemma chat_main_menu_input w a bot n rest :
  bots w !! a = Some bot →
  current_state_ bot = instance MainMenuState →
  std.extract_int None (cin w) = (n, rest) →
  request a process_input w = Returned tt
    {| bots := if decide (n = 1)
               then <[a := bot_in CollectNameState (patient_ bot)]> (bots w)
               else if decide (n = 2)
               then <[a := bot_in FinishedState (patient_ bot)]> (bots w)
               else bots w;
       cin := std.ignore_line rest;
       cout := cout w |}.
Proof.
  intros Ha Hc Hr. exec.
  destruct n as [|[[]|[]|]|]; exec; repeat case_decide; try lia; reflexivity.
Qed.

Lemma chat_confirm_info_input w a bot n rest :
  bots w !! a = Some bot →
  current_state_ bot = instance ConfirmInfoState →
  std.extract_int None (cin w) = (n, rest) →
  request a process_input w = Returned tt
    {| bots := if decide (n = 1)
               then <[a := bot_in EditOptionsState (patient_ bot)]> (bots w)
               else if decide (n = 2)
               then <[a := bot_in MainMenuState (patient_ bot)]> (bots w)
               else bots w;
       cin := std.ignore_line rest;
       cout := cout w |}.
Proof.
  intros Ha Hc Hr. exec.
  destruct n as [|[[]|[]|]|]; exec; repeat case_decide; try lia; reflexivity.
Qed.

Lemma chat_edit_options_input w a bot n rest :
  bots w !! a = Some bot →
  current_state_ bot = instance EditOptionsState →
  std.extract_int None (cin w) = (n, rest) →
  request a process_input w = Returned tt
    {| bots := if decide (n = 1)
               then <[a := bot_in EditNameState (patient_ bot)]> (bots w)
               else if decide (n = 2)
               then <[a := bot_in EditAddressState (patient_ bot)]> (bots w)
               else if decide (n = 3)
               then <[a := bot_in EditAgeState (patient_ bot)]> (bots w)
               else if decide (n = 4)
               then <[a := bot_in EditHeightState (patient_ bot)]> (bots w)
               else if decide (n = 5)
               then <[a := bot_in ConfirmInfoState (patient_ bot)]> (bots w)
               else bots w;
       cin := std.ignore_line rest;
       cout := cout w |}.
Proof.
  intros Ha Hc Hr. exec.
  destruct n as [|[[[]|[]|]|[[]|[]|]|]|]; exec; repeat case_decide; try lia;
    reflexivity.
Qed.

(** The data-collection and editing states: what [process_input] stores. *)
Lemma chat_collect_name_input w a bot v rest :
  bots w !! a = Some bot →
  current_state_ bot = instance CollectNameState →
  std.getline (cin w) = (v, rest) →
  request a process_input w = Returned tt
    {| bots := <[a := bot_in CollectAddressState
                   {| name := v; address := address (patient_ bot);
                      age := age (patient_ bot); height := height (patient_ bot) |}]>
                 (bots w);
       cin := rest; cout := cout w |}.
Proof. intros Ha Hc Hr. exec. reflexivity. Qed.

Lemma chat_collect_address_input w a bot v rest :
  bots w !! a = Some bot →
  current_state_ bot = instance CollectAddressState →
  std.getline (cin w) = (v, rest) →
  request a process_input w = Returned tt
    {| bots := <[a := bot_in CollectAgeState
                   {| name := name (patient_ bot); address := v;
                      age := age (patient_ bot); height := height (patient_ bot) |}]>
                 (bots w);
       cin := rest; cout := cout w |}.
Proof. intros Ha Hc Hr. exec. reflexivity. Qed.

Lemma chat_collect_age_input w a bot v rest :
  bots w !! a = Some bot →
  current_state_ bot = instance CollectAgeState →
  std.extract_int (Some 0) (cin w) = (v, rest) →
  request a process_input w = Returned tt
    {| bots := <[a := bot_in CollectHeightState
                   {| name := name (patient_ bot); address := address (patient_ bot);
                      age := v; height := height (patient_ bot) |}]>
                 (bots w);
       cin := std.ignore_line rest; cout := cout w |}.
Proof. intros Ha Hc Hr. exec. reflexivity. Qed.

Lemma chat_collect_height_input w a bot v rest :
  bots w !! a = Some bot →
  current_state_ bot = instance CollectHeightState →
  std.extract_int (Some 0) (cin w) = (v, rest) →
  request a process_input w = Returned tt
    {| bots := <[a := bot_in ConfirmInfoState
                   {| name := name (patient_ bot); address := address (patient_ bot);
                      age := age (patient_ bot); height := v |}]>
                 (bots w);
       cin := std.ignore_line rest; cout := cout w |}.
Proof. intros Ha Hc Hr. exec. reflexivity. Qed.

Lemma chat_edit_age_input w a bot v rest :
  bots w !! a = Some bot →
  current_state_ bot = instance EditAgeState →
  std.extract_int (Some 0) (cin w) = (v, rest) →
  request a process_input w = Returned tt
    {| bots := <[a := bot_in EditOptionsState
                   {| name := name (patient_ bot); address := address (patient_ bot);
                      age := v; height := height (patient_ bot) |}]>
                 (bots w);
       cin := std.ignore_line rest; cout := cout w |}.
Proof. intros Ha Hc Hr. exec. reflexivity. Qed.

Lemma chat_running_spec w a bot :
  bots w !! a = Some bot →
  running a w =
    Returned (bool_decide (current_state_ bot ≠ instance FinishedState)) w.
Proof. intros Ha. unfold running. exec. reflexivity. Qed.

Lemma chat_ctor_spec w a age0 height0 :
  ChatBot_ctor a age0 height0 w = Returned tt
    {| bots := <[a := bot_in StartState {| name := EmptyString; address := EmptyString;
                                           age := age0; height := height0 |}]>
                 (bots w);
       cin := cin w; cout := cout w |}.
Proof. unfold ChatBot_ctor. exec. reflexivity. Qed.

End chat_facts.

Section chat_sessions.
Context {istream : Type} `{!std.IStream istream}.
Import chat.
Implicit Types (w : world istream) (a : addr) (bot : ChatBot).

Ltac step lem :=
  cbn [requests];
  erewrite bind_returned;
    [|eapply lem; cbn [bots cin cout];
      [first [eassumption | apply lookup_insert_eq]
      |first [eassumption | reflexivity]
      |first [eassumption | reflexivity]]];
  cbv beta; cbn [bots cin cout patient_ name address age height bot_in];
  repeat (case_decide; try lia).

(** C4: a chatbot in the Start state that reads one line (whatever it is),
    then the selection 1, then the name "Ada", the address "1 Main St", the
    age 30 and the height 170, ends in ConfirmInfo, and its patient record
    holds exactly these four values. *)
Theorem C4_intake_reaches_confirm_info w a bot line c1 c2 c3 c4 c5 c6 :
  bots w !! a = Some bot →
  current_state_ bot = instance StartState →
  std.getline (cin w) = (line, c1) →
  std.extract_int None c1 = (1, c2) →
  std.getline (std.ignore_line c2) = ("Ada", c3) →
  std.getline c3 = ("1 Main St", c4) →
  std.extract_int (Some 0) c4 = (30, c5) →
  std.extract_int (Some 0) (std.ignore_line c5) = (170, c6) →
  let ada := {| name := "Ada"; address := "1 Main St"; age := 30; height := 170 |} in
  ∃ w',
    requests a [process_input; process_input; process_input;
                process_input; process_input; process_input] w = Returned tt w' ∧
    bots w' !! a = Some (bot_in ConfirmInfoState ada) ∧
    get_patient_info a w' = Returned ada w'.
Proof.
  intros Ha Hc H1 H2 H3 H4 H5 H6 ada.
  eexists. split; [|split].
  - step @chat_start_input. step @chat_main_menu_input.
    step @chat_collect_name_input. step @chat_collect_address_input.
    step @chat_collect_age_input. step @chat_collect_height_input.
    reflexivity.
  - cbn [bots]. by rewrite lookup_insert_eq.
  - unfold get_patient_info.
    erewrite bind_returned by (apply load_returned, lookup_insert_eq).
    reflexivity.
Qed.

(** C5: from ConfirmInfo the selection 2 leads to MainMenu and the
    selection 1 to EditOptions; from there the selection 3, the age 31 and
    the selection 5 lead back to ConfirmInfo, with the age set to 31 and the
    name, the address and the height as they were. *)
Theorem C5_confirm_then_edit_age
    (bs : gmap addr ChatBot) (out : std.ostream) a bot
    (c_save r_save c_edit c1 c2 c3 c4 : istream) :
  bs !! a = Some bot →
  current_state_ bot = instance ConfirmInfoState →
  std.extract_int None c_save = (2, r_save) →
  std.extract_int None c_edit = (1, c1) →
  std.extract_int None (std.ignore_line c1) = (3, c2) →
  std.extract_int (Some 0) (std.ignore_line c2) = (31, c3) →
  std.extract_int None (std.ignore_line c3) = (5, c4) →
  (∃ w',
     request a process_input {| bots := bs; cin := c_save; cout := out |}
       = Returned tt w' ∧
     bots w' !! a = Some (bot_in MainMenuState (patient_ bot))) ∧
  (∃ w1 w',
     request a process_input {| bots := bs; cin := c_edit; cout := out |}
       = Returned tt w1 ∧
     bots w1 !! a = Some (bot_in EditOptionsState (patient_ bot)) ∧
     requests a [process_input; process_input; process_input] w1
       = Returned tt w' ∧
     bots w' !! a =
       Some (bot_in ConfirmInfoState
               {| name := name (patient_ bot); address := address (patient_ bot);
                  age := 31; height := height (patient_ bot) |})).
Proof.
  intros Ha Hc Hs H1 H2 H3 H4. split.
  - eexists. split.
    + eapply chat_confirm_info_input; cbn; eauto.
    + cbn [bots]. repeat (case_decide; try lia). by rewrite lookup_insert_eq.
  - eexists. eexists. split; [|split; [|split]].
    + eapply chat_confirm_info_input; cbn; eauto.
    + cbn [bots]. repeat (case_decide; try lia). by rewrite lookup_insert_eq.
    + repeat (case_decide; try lia).
      step @chat_edit_options_input. step @chat_edit_age_input.
      step @chat_edit_options_input. reflexivity.
    + cbn [bots]. by rewrite lookup_insert_eq.
Qed.

(** C6: from MainMenu the selection 2 leads to Finished, after which
    [running()] returns false and the loop of the demo ends without another
    request; [running()] returns false exactly when the current state is the
    instance of [FinishedState]. *)
Theorem C6_exit_reaches_finished w a bot rest :
  bots w !! a = Some bot →
  current_state_ bot = instance MainMenuState →
  std.extract_int None (cin w) = (2, rest) →
  (∃ w',
     request a process_input w = Returned tt w' ∧
     bots w' !! a = Some (bot_in FinishedState (patient_ bot)) ∧
     running a w' = Returned false w' ∧
     ∀ fuel, demo_loop (S fuel) a w' = Returned true w') ∧
  (∀ w2 b, bots w2 !! a = Some b →
     (running a w2 = Returned false w2 ↔
      current_state_ b = instance FinishedState)).
Proof.
  intros Ha Hc Hr.
  assert (∀ w2 b, bots w2 !! a = Some b →
     (running a w2 = Returned false w2 ↔
      current_state_ b = instance FinishedState)) as Hrun.
  { intros w2 b Hb. rewrite (chat_running_spec w2 a b Hb). split.
    - intros [= Hd]. apply bool_decide_eq_false in Hd.
      by destruct (decide (current_state_ b = instance FinishedState)).
    - intros ->. by rewrite bool_decide_eq_false_2 by (intros Hne; by apply Hne). }
  split; [|done].
  rewrite (chat_main_menu_input w a bot 2 rest) by done.
  repeat (case_decide; try lia).
  set (w' := {| bots := _; cin := _; cout := _ |}).
  assert (bots w' !! a = Some (bot_in FinishedState (patient_ bot))) as Ha'
    by apply lookup_insert_eq.
  assert (running a w' = Returned false w') as E by by eapply Hrun.
  exists w'. repeat split; try done.
  intros fuel. cbn [demo_loop]. by rewrite (bind_returned _ _ _ _ _ E).
Qed.

(** C10: in MainMenu, ConfirmInfo and EditOptions, [process_input] with a
    number that is none of the state's options changes neither the current
    state nor the patient record and writes nothing: only the input line is
    consumed. *)
Theorem C10_unlisted_selection_is_noop w a bot c n rest :
  bots w !! a = Some bot →
  current_state_ bot = instance c →
  c ∈ [MainMenuState; ConfirmInfoState; EditOptionsState] →
  n ∉ menu_options c →
  std.extract_int None (cin w) = (n, rest) →
  request a process_input w = Returned tt
    {| bots := bots w; cin := std.ignore_line rest; cout := cout w |}.
Proof.
  intros Ha Hc Hin Hn Hr. set_unfold in Hin.
  destruct Hin as [->|[->|[->|[]]]]; cbn in Hn; set_unfold in Hn.
  - rewrite (chat_main_menu_input w a bot n rest) by done.
    repeat case_decide; try reflexivity; exfalso; naive_solver.
  - rewrite (chat_confirm_info_input w a bot n rest) by done.
    repeat case_decide; try reflexivity; exfalso; naive_solver.
  - rewrite (chat_edit_options_input w a bot n rest) by done.
    repeat case_decide; try reflexivity; exfalso; naive_solver.
Qed.

End chat_sessions.

(** ** The chatbot on a state set *)

Section nosingleton_facts.
Context {istream : Type} `{!std.IStream istream}.
Import nosingleton.
Implicit Types (w : world istream) (a s : addr) (bot : ChatBot).

Ltac exec :=
  repeat first
    [ progress cbn
    | progress unfold_M
    | progress unfold request, change_state, ChatBot_change_state, update_bot,
        StateSet_get_state, states_assign, get_patient_info, clear_screen,
        set_patient_name, set_patient_address, set_patient_age,
        set_patient_height, cin_getline, cin_extract_int, cin_ignore,
        cout_put, set_bots, set_sets in *
    | progress unfold
        StartState_process_input, MainMenuState_process_input,
        CollectNameState_process_input, CollectAddressState_process_input,
        CollectAgeState_process_input, CollectHeightState_process_input,
        EditNameState_process_input, EditAddressState_process_input,
        EditAgeState_process_input, EditHeightState_process_input,
        ConfirmInfoState_process_input, EditOptionsState_process_input,
        FinishedState_process_input
    | progress unfold
        StartState_prompt_user, MainMenuState_prompt_user,
        CollectNameState_prompt_user, CollectAddressState_prompt_user,
        CollectAgeState_prompt_user, CollectHeightState_prompt_user,
        EditNameState_prompt_user, EditAddressState_prompt_user,
        EditAgeState_prompt_user, EditHeightState_prompt_user,
        ConfirmInfoState_prompt_user, EditOptionsState_prompt_user,
        FinishedState_prompt_user
    | match goal with H : _ !! _ = Some _ |- _ => rewrite H end
    | match goal with H : ∀ name, _ !! name = Some _ |- _ => rewrite H end
    | match goal with H : std.getline _ = _ |- _ => rewrite H end
    | match goal with H : std.extract_int _ _ = _ |- _ => rewrite H end
    | match goal with H : current_state_ _ = _ |- _ => rewrite H end
    | match goal with H : state_set_ _ = _ |- _ => rewrite H end
    | rewrite lookup_insert_eq
    | rewrite insert_insert_eq ].

Lemma ns_StateSet_ctor_spec w s :
  ∃ set,
    StateSet_ctor s w = Returned tt (set_sets <[s := set]> w) ∧
    (∀ name, states_ set !! name = Some (Some (s, member_named name))) ∧
    size (states_ set) = 13%nat.
Proof.
  unfold StateSet_ctor. exec. eexists. split; [reflexivity|]. cbn. split.
  - by intros [].
  - reflexivity.
Qed.

Ltac local_case Hread :=
  eexists _, _; split; last first;
    [ let w := fresh "w" in
      let Hc := fresh "Hc" in
      let Ha := fresh "Ha" in
      intros w (? & ? & ?) Ha Hc;
      specialize (Hread w Hc);
      destruct w; cbn in *;
      eexists; exec;
      first [reflexivity | rewrite insert_id by eassumption; reflexivity]
    | split; cbn; eauto ].

(** What a request does to the chatbot it is sent to depends only on that
    chatbot and on the input: it is the same in every world that holds this
    chatbot and a constructed state set.  Nothing else in memory changes. *)
Lemma ns_request_local s a bot r c :
  bot_on s bot →
  ∃ bot' c',
    bot_on s bot' ∧
    ∀ w, constructed w s → bots w !! a = Some bot → cin w = c →
      ∃ out, request a r w = Returned tt
               {| bots := <[a := bot']> (bots w); sets := sets w;
                  cin := c'; cout := out |}.
Proof.
  intros [Hs [m Hm]].
  destruct (std.getline c) as [l cl] eqn:Hl.
  destruct (std.extract_int None c) as [n cn] eqn:Hn.
  destruct (std.extract_int (Some 0) c) as [v cv] eqn:Hv.
  assert (∀ w, cin w = c → std.getline (cin w) = (l, cl)) as Hl' by by intros ? ->.
  assert (∀ w, cin w = c → std.extract_int None (cin w) = (n, cn)) as Hn'
    by by intros ? ->.
  assert (∀ w, cin w = c → std.extract_int (Some 0) (cin w) = (v, cv)) as Hv'
    by by intros ? ->.
  clear Hl Hn Hv.
  assert (∃ bot' c', bot_on s bot' ∧
            ∀ w, constructed w s → bots w !! a = Some bot → cin w = c →
              ∃ out, Returned tt w = Returned tt
                {| bots := <[a := bot']> (bots w); sets := sets w;
                   cin := c'; cout := out |}) as Hskip.
  { exists bot, c. split; [by split; eauto|].
    intros w _ Ha Hc. rewrite (insert_id _ _ _ Ha), <- Hc. destruct w. by eexists. }
  destruct r.
  - exists bot, c. split; [by split; eauto|].
    intros w (set & Hset & Hreg) Ha Hc.
    rewrite (insert_id _ _ _ Ha), <- Hc.
    destruct w as [bs ss ci co]; cbn in *.
    destruct m; eexists; exec; reflexivity.
  - destruct m.
    + local_case Hl'.
    + destruct n as [|[[]|[]|]|]; local_case Hn'.
    + local_case Hl'.
    + local_case Hl'.
    + local_case Hv'.
    + local_case Hv'.
    + local_case Hl'.
    + local_case Hl'.
    + local_case Hv'.
    + local_case Hv'.
    + destruct n as [|[[]|[]|]|]; local_case Hn'.
    + destruct n as [|[[[]|[]|]|[[]|[]|]|]|]; local_case Hn'.
    + destruct Hskip as (bot' & c' & Hon & Hw). exists bot', c'. split; [done|].
      intros w Hcon Ha Hc. destruct (Hw w Hcon Ha Hc) as [out Hout].
      exists out. rewrite <- Hout. destruct Hcon as (set & Hset & Hreg).
      exec. reflexivity.
Qed.

Lemma ns_request_total w s a r :
  constructed w s → built_on w s a →
  ∃ w', request a r w = Returned tt w' ∧
        constructed w' s ∧ built_on w' s a ∧ sets w' = sets w ∧
        ∀ b, b ≠ a → bots w' !! b = bots w !! b.
Proof.
  intros Hcon (bot & Ha & Hon).
  destruct (ns_request_local s a bot r (cin w) Hon) as (bot' & c' & Hon' & Hreq).
  destruct (Hreq w Hcon Ha eq_refl) as [out ->].
  eexists. split; [reflexivity|]. repeat split; try done.
  - exists bot'. split; [apply lookup_insert_eq|done].
  - intros b Hb. cbn. by rewrite lookup_insert_ne.
Qed.

Lemma ns_requests_total w s a rs :
  constructed w s → built_on w s a →
  ∃ w', requests a rs w = Returned tt w' ∧ constructed w' s ∧ built_on w' s a.
Proof.
  revert w. induction rs as [|r rs IH]; intros w Hcon Hon; cbn [requests].
  - by exists w.
  - destruct (ns_request_total w s a r Hcon Hon) as (w1 & E1 & Hcon1 & Hon1 & _).
    rewrite (bind_returned _ _ _ _ _ E1). by apply IH.
Qed.

Lemma ns_get_state_spec w s name :
  constructed w s →
  StateSet_get_state s name w = Returned (Some (s, member_named name)) w.
Proof. intros (set & Hset & Hreg). exec. reflexivity. Qed.

Lemma ns_ChatBot_ctor_spec w s a age0 height0 :
  constructed w s →
  ChatBot_ctor a (Some s) age0 height0 w = Returned tt
    (set_bots <[a := {| current_state_ := Some (s, start_state_);
                        state_set_ := Some s;
                        patient_ := {| name := EmptyString; address := EmptyString;
                                       age := age0; height := height0 |} |}]> w).
Proof. intros (set & Hset & Hreg). unfold ChatBot_ctor. exec. reflexivity. Qed.

Lemma ns_constructed_after_ctor w s :
  ∃ w', StateSet_ctor s w = Returned tt w' ∧ constructed w' s ∧
        bots w' = bots w ∧ cin w' = cin w ∧ cout w' = cout w.
Proof.
  destruct (ns_StateSet_ctor_spec w s) as (set & -> & Hreg & _).
  eexists. split; [reflexivity|]. split; [|done].
  exists set. split; [apply lookup_insert_eq|done].
Qed.


End nosingleton_facts.

Section nosingleton_contexts.
Context {istream : Type} `{!std.IStream istream}.
Import nosingleton.
Implicit Types (w : world istream) (a s : addr) (bot : ChatBot).

(** C3: once a [StateSet] is constructed, [get_state] succeeds for every
    [StateName] (neither assertion fails), returns a non-null pointer, leaves
    everything as it was, and so returns the same state object when called
    again; the map holds exactly one entry per name, and different names
    are mapped to different objects. *)
Theorem C3_get_state_total_and_stable w s :
  ∃ w' set,
    StateSet_ctor s w = Returned tt w' ∧
    sets w' !! s = Some set ∧
    (∀ name, ∃ m,
       StateSet_get_state s name w' = Returned (Some (s, m)) w' ∧
       (p1 ← StateSet_get_state s name;
        p2 ← StateSet_get_state s name;
        mret (p1, p2)) w' = Returned (Some (s, m), Some (s, m)) w' ∧
       states_ set !! name = Some (Some (s, m))) ∧
    size (states_ set) = length StateName.enumerators ∧
    (∀ name, name ∈ StateName.enumerators) ∧
    (∀ name1 name2 p,
       states_ set !! name1 = Some p → states_ set !! name2 = Some p →
       name1 = name2).
Proof.
  destruct (ns_StateSet_ctor_spec w s) as (set & E & Hreg & Hsize).
  exists (set_sets <[s := set]> w), set.
  assert (constructed (set_sets <[s := set]> w) s) as Hcon.
  { exists set. split; [apply lookup_insert_eq|done]. }
  split; [done|]. split; [apply lookup_insert_eq|].
  split; [|split; [done|split]].
  - intros name. exists (member_named name).
    pose proof (ns_get_state_spec _ s name Hcon) as Eg.
    split; [done|]. split; [|done].
    by rewrite (bind_returned _ _ _ _ _ Eg), (bind_returned _ _ _ _ _ Eg).
  - intros []; set_solver.
  - intros name1 name2 p. rewrite !Hreg. intros [= <-] [= Hm].
    by destruct name1, name2.
Qed.


(** C8: a constructed context has a current state that is not null and is
    one of the state objects (an [instance()] object in [tcp], a member of
    its state set in [nosingleton]); every request keeps it so and returns,
    so that no assertion of [change_state] fails, whatever the requests. *)
Theorem C8_current_state_never_null :
  (∀ (tw : tcp.world) a is_server,
     ∃ tw', tcp.TCPConnection_ctor a is_server tw = Returned tt tw' ∧
            tcp.has_state tw' a) ∧
  (∀ (tw : tcp.world) a r,
     tcp.has_state tw a →
     ∃ tw', tcp.request a r tw = Returned tt tw' ∧ tcp.has_state tw' a) ∧
  (∀ (tw : tcp.world) a is_server rs,
     ∃ tw', (tcp.TCPConnection_ctor a is_server;; tcp.requests a rs) tw
              = Returned tt tw' ∧
            tcp.has_state tw' a) ∧
  (∀ w s a age0 height0,
     constructed w s →
     ∃ w', ChatBot_ctor a (Some s) age0 height0 w = Returned tt w' ∧
           constructed w' s ∧ built_on w' s a) ∧
  (∀ w s a r,
     constructed w s → built_on w s a →
     ∃ w', request a r w = Returned tt w' ∧
           constructed w' s ∧ built_on w' s a) ∧
  (∀ w s a age0 height0 rs,
     ∃ w', (StateSet_ctor s;; ChatBot_ctor a (Some s) age0 height0;;
            requests a rs) w = Returned tt w' ∧
           constructed w' s ∧ built_on w' s a).
Proof.
  assert (∀ (tw : tcp.world) a is_server,
     ∃ tw', tcp.TCPConnection_ctor a is_server tw = Returned tt tw' ∧
            tcp.has_state tw' a) as Htc.
  { intros tw a is_server. rewrite tcp_ctor_spec. eexists. split; [done|].
    eexists _, _. split; [apply tcp_lookup_set|done]. }
  assert (∀ w s a age0 height0,
     constructed w s →
     ∃ w', ChatBot_ctor a (Some s) age0 height0 w = Returned tt w' ∧
           constructed w' s ∧ built_on w' s a) as Hnc.
  { intros w s a age0 height0 Hcon. rewrite ns_ChatBot_ctor_spec by done.
    eexists. split; [done|]. split; [done|].
    eexists. split; [apply lookup_insert_eq|]. split; cbn; eauto. }
  repeat split.
  - done.
  - intros tw a r Hs. destruct (tcp_request_total tw a r Hs) as (tw' & ? & ? & _).
    by exists tw'.
  - intros tw a is_server rs. destruct (Htc tw a is_server) as (tw1 & E1 & H1).
    rewrite (bind_returned _ _ _ _ _ E1). by apply tcp_requests_total.
  - done.
  - intros w s a r Hcon Hon.
    destruct (ns_request_total w s a r Hcon Hon) as (w' & ? & ? & ? & _).
    by exists w'.
  - intros w s a age0 height0 rs.
    destruct (ns_constructed_after_ctor w s) as (w1 & E1 & Hcon1 & _).
    rewrite (bind_returned _ _ _ _ _ E1).
    destruct (Hnc w1 s a age0 height0 Hcon1) as (w2 & E2 & Hcon2 & Hon2).
    rewrite (bind_returned _ _ _ _ _ E2). by apply ns_requests_total.
Qed.

End nosingleton_contexts.

(** ** Unhandled requests *)

Section default_handlers.
Context {istream : Type} `{!std.IStream istream}.

Lemma tcp_diagnostic_default c r :
  tcp.overrides c r = false →
  tcp.diagnostic c r = Some (tcp.default_message r +:+ std.endl).
Proof.
  intros Hov. unfold tcp.diagnostic. cbv zeta.
  rewrite (tcp_default_handler _ 1%positive
             {| tcp.current_state_ := tcp.instance c; tcp.is_server_ := false |}
             c r); [reflexivity| |reflexivity|exact Hov].
  apply lookup_singleton_eq.
Qed.

Lemma chat_State_prompt_user_spec (w : chat.world istream) bot :
  chat.State_prompt_user bot w = Returned tt
    {| chat.bots := chat.bots w; chat.cin := chat.cin w;
       chat.cout := (chat.cout w +:+
                     "Error: State does not implement State::prompt_user") +:+
                    std.endl |}.
Proof. reflexivity. Qed.

Lemma chat_State_process_input_spec (w : chat.world istream) bot :
  chat.State_process_input bot w = Returned tt
    {| chat.bots := chat.bots w; chat.cin := chat.cin w;
       chat.cout := (chat.cout w +:+
                     "Error: State does not implement State::process_input") +:+
                    std.endl |}.
Proof. reflexivity. Qed.

Lemma chat_overrides_all c r : @chat.overrides istream _ c r = true.
Proof. by destruct c, r. Qed.

(** C2: when the class of the current state does not override the handler
    of a request, the request returns with the connection as it was (same
    current state, same [is_server_]) and the message of the default handler
    written to [std::cerr]; the connection still has its state, and every
    further request returns.  In [chat] the handlers of the base class do the
    same on [std::cout], and every state class overrides both of them. *)
Theorem C2_unhandled_request_changes_nothing
    (tw : tcp.world) a conn c r :
  tcp.connections tw !! a = Some conn →
  tcp.current_state_ conn = tcp.instance c →
  tcp.overrides c r = false →
  let tw' := {| tcp.connections := tcp.connections tw;
                tcp.cerr := (tcp.cerr tw +:+ tcp.default_message r) +:+ std.endl |} in
  tcp.request a r tw = Returned tt tw' ∧
  tcp.connections tw' !! a = Some conn ∧
  (∀ r', ∃ tw'', tcp.request a r' tw' = Returned tt tw'' ∧ tcp.has_state tw'' a) ∧
  (∀ (w : chat.world istream) bot,
     chat.State_prompt_user bot w = Returned tt
       {| chat.bots := chat.bots w; chat.cin := chat.cin w;
          chat.cout := (chat.cout w +:+
                        "Error: State does not implement State::prompt_user") +:+
                       std.endl |} ∧
     chat.State_process_input bot w = Returned tt
       {| chat.bots := chat.bots w; chat.cin := chat.cin w;
          chat.cout := (chat.cout w +:+
                        "Error: State does not implement State::process_input") +:+
                       std.endl |}) ∧
  (∀ c' r', @chat.overrides istream _ c' r' = true).
Proof.
  intros Ha Hc Hov tw'. split; [by apply (tcp_default_handler tw a conn c)|].
  split; [done|]. split; [|split].
  - intros r'. destruct (tcp_request_total tw' a r') as (tw'' & E & Hs & _).
    + by exists conn, c.
    + by exists tw''.
  - intros w bot. split.
    + apply chat_State_prompt_user_spec.
    + apply chat_State_process_input_spec.
  - apply chat_overrides_all.
Qed.

(** C9, as the code has it: the message of a default handler names the
    member function requested and nothing else.  In [tcp] it is
    "Error: current state does not implement TCPState::" followed by the name
    of the request, whatever the state; the request can be read off it, the
    state cannot.  In [chat] it is "Error: State does not implement State::"
    followed by [prompt_user] or [process_input]. *)
Theorem C9_default_message_names_the_request_only c r :
  tcp.overrides c r = false →
  tcp.diagnostic c r =
    Some (("Error: current state does not implement TCPState::" +:+
           tcp.member_function r) +:+ std.endl) ∧
  (∀ c', tcp.overrides c' r = false → tcp.diagnostic c' r = tcp.diagnostic c r) ∧
  tcp.diagnostic_identifies_event ∧
  (∀ (w : chat.world istream) bot,
     chat.State_prompt_user bot w = Returned tt
       {| chat.bots := chat.bots w; chat.cin := chat.cin w;
          chat.cout := (chat.cout w +:+
                        "Error: State does not implement State::prompt_user") +:+
                       std.endl |} ∧
     chat.State_process_input bot w = Returned tt
       {| chat.bots := chat.bots w; chat.cin := chat.cin w;
          chat.cout := (chat.cout w +:+
                        "Error: State does not implement State::process_input") +:+
                       std.endl |}).
Proof.
  intros Hov. split; [by apply tcp_diagnostic_default|]. split; [|split].
  - intros c' Hov'. by rewrite !tcp_diagnostic_default.
  - exists (λ msg, String.substring 50 (String.length msg - 51) msg).
    intros c0 r0 msg Hov0. rewrite tcp_diagnostic_default by done.
    intros [= <-]. by destruct r0.
  - intros w bot. split.
    + apply chat_State_prompt_user_spec.
    + apply chat_State_process_input_spec.
Qed.

End default_handlers.

(** C9 does not hold as the specification words it: the default handlers
    write the same message for every state.  [TCPListen] and [TCPSynSent]
    are different states, neither overrides [close], and both answer it with
    the same text, so the state cannot be read off the message. *)
Lemma C9_same_message_for_two_states :
  tcp.TCPListen ≠ tcp.TCPSynSent ∧
  tcp.overrides tcp.TCPListen tcp.close = false ∧
  tcp.overrides tcp.TCPSynSent tcp.close = false ∧
  tcp.diagnostic tcp.TCPListen tcp.close =
    Some ("Error: current state does not implement TCPState::close" +:+ std.endl) ∧
  tcp.diagnostic tcp.TCPSynSent tcp.close =
    Some ("Error: current state does not implement TCPState::close" +:+ std.endl) ∧
  ¬ tcp.diagnostic_identifies_state.
Proof.
  repeat split; try done.
  intros [state_of Hid].
  set (msg := "Error: current state does not implement TCPState::close" +:+ std.endl).
  pose proof (Hid tcp.TCPListen tcp.close msg eq_refl eq_refl) as H1.
  pose proof (Hid tcp.TCPSynSent tcp.close msg eq_refl eq_refl) as H2.
  rewrite H1 in H2. discriminate H2.
Qed.


(** ** Sample sessions *)

(** The demo of [chatbot.h] on a whole session: a patient is entered, the age
    is corrected, an unknown selection is ignored, and Exit ends the loop. *)
Example chat_demo_session :
  let session := ["anything"; "1"; "Ada"; "1 Main St"; "30"; "170";
                  "1"; "3"; "31"; "5"; "2"; "9"; "2"] in
  match chat.demo_loop 20 1 (sample.chat_fresh session) with
  | Returned finished w => Some (finished, chat.bots w !! 1%positive)
  | Aborted _ => None
  end
  = Some (true,
          Some (chat.bot_in chat.FinishedState
                  {| chat.name := "Ada"; chat.address := "1 Main St";
                     chat.age := 31; chat.height := 170 |})).
Proof. vm_compute. reflexivity. Qed.

(** What the ConfirmInfo state shows after clearing the screen. *)
Example chat_confirm_info_prompt :
  match chat.request 1 chat.prompt_user
          (sample.chat_with_ada chat.ConfirmInfoState []) with
  | Returned _ w => Some (String.substring 101 109 (chat.cout w))
  | Aborted _ => None
  end
  = Some ("Confirm Info is Correct" +:+ std.newlines 3 +:+
          "Patient Name: Ada" +:+ std.newline +:+
          "Patient Address: 1 Main St" +:+ std.newline +:+
          "Patient Age: 30" +:+ std.newline +:+
          "Patient Height: 170" +:+ std.newlines 3).
Proof. vm_compute. reflexivity. Qed.

(** A request to a connection that was never constructed, and a null state
    handed to [change_state]: both stop the program. *)
Example tcp_faults :
  tcp.request 1 tcp.close {| tcp.connections := ∅; tcp.cerr := EmptyString |}
    = Aborted InvalidPointer ∧
  tcp.TCPState_change_state (Some 1%positive) nullptr sample.tcp_fresh
    = Aborted (AssertionFailed "state") ∧
  tcp.TCPState_change_state nullptr (tcp.instance tcp.TCPListen) sample.tcp_fresh
    = Aborted (AssertionFailed "context").
Proof. repeat split; vm_compute; reflexivity. Qed.

(** A chatbot constructed on a state set that was never constructed. *)
Example nosingleton_needs_a_state_set :
  nosingleton.ChatBot_ctor 1 (Some 10%positive) 0 0
    {| nosingleton.bots := ∅; nosingleton.sets := ∅;
       nosingleton.cin := console.typed EmptyString; nosingleton.cout := EmptyString |}
    = Aborted InvalidPointer.
Proof. vm_compute. reflexivity. Qed.

(** ** The theorems on sample runs *)

Lemma C1_witness :
  ∃ w1 w2 w3,
    tcp.request 1 tcp.passive_open sample.tcp_fresh = Returned tt w1 ∧
    tcp.connections w1 !! 1%positive = Some (tcp.connection_in tcp.TCPListen true) ∧
    tcp.request 1 tcp.send w1 = Returned tt w2 ∧
    tcp.connections w2 !! 1%positive = Some (tcp.connection_in tcp.TCPEstablished true) ∧
    tcp.request 1 tcp.close w2 = Returned tt w3 ∧
    tcp.connections w3 !! 1%positive = Some (tcp.connection_in tcp.TCPListen true) ∧
    tcp.requests 1 [tcp.passive_open; tcp.send; tcp.close] sample.tcp_fresh
      = Returned tt w3.
Proof.
  apply (C1_closed_listen_established_listen sample.tcp_fresh 1
           (tcp.connection_in tcp.TCPClosed true)); reflexivity.
Defined.

Lemma C2_witness :
  tcp.request 1 tcp.close sample.tcp_listening = Returned tt
    {| tcp.connections := tcp.connections sample.tcp_listening;
       tcp.cerr := "Error: current state does not implement TCPState::close"
                   +:+ std.endl |}.
Proof.
  destruct (C2_unhandled_request_changes_nothing (istream := console.t)
              sample.tcp_listening 1 (tcp.connection_in tcp.TCPListen true)
              tcp.TCPListen tcp.close) as [E _]; [reflexivity..|exact E].
Defined.

Lemma C4_witness :
  ∃ w',
    chat.requests 1
      [chat.process_input; chat.process_input; chat.process_input;
       chat.process_input; chat.process_input; chat.process_input]
      (sample.chat_fresh ["hello"; "1"; "Ada"; "1 Main St"; "30"; "170"])
      = Returned tt w' ∧
    chat.bots w' !! 1%positive = Some (chat.bot_in chat.ConfirmInfoState sample.ada) ∧
    chat.get_patient_info 1 w' = Returned sample.ada w'.
Proof.
  eapply (C4_intake_reaches_confirm_info
            (sample.chat_fresh ["hello"; "1"; "Ada"; "1 Main St"; "30"; "170"]) 1);
    reflexivity.
Defined.

Lemma C5_witness :
  (∃ w',
     chat.request 1 chat.process_input
       (sample.chat_with_ada chat.ConfirmInfoState ["2"]) = Returned tt w' ∧
     chat.bots w' !! 1%positive = Some (chat.bot_in chat.MainMenuState sample.ada)) ∧
  (∃ w1 w',
     chat.request 1 chat.process_input
       (sample.chat_with_ada chat.ConfirmInfoState ["1"; "3"; "31"; "5"])
       = Returned tt w1 ∧
     chat.bots w1 !! 1%positive = Some (chat.bot_in chat.EditOptionsState sample.ada) ∧
     chat.requests 1 [chat.process_input; chat.process_input; chat.process_input] w1
       = Returned tt w' ∧
     chat.bots w' !! 1%positive =
       Some (chat.bot_in chat.ConfirmInfoState
               {| chat.name := "Ada"; chat.address := "1 Main St";
                  chat.age := 31; chat.height := 170 |})).
Proof.
  eapply (C5_confirm_then_edit_age
            {[1%positive := chat.bot_in chat.ConfirmInfoState sample.ada]} EmptyString 1
            (chat.bot_in chat.ConfirmInfoState sample.ada)
            (console.typed (sample.typed_lines ["2"])) _
            (console.typed (sample.typed_lines ["1"; "3"; "31"; "5"])));
    reflexivity.
Defined.

Lemma C6_witness :
  ∃ w',
    chat.request 1 chat.process_input
      (sample.chat_with_ada chat.MainMenuState ["2"]) = Returned tt w' ∧
    chat.bots w' !! 1%positive = Some (chat.bot_in chat.FinishedState sample.ada) ∧
    chat.running 1 w' = Returned false w' ∧
    ∀ fuel, chat.demo_loop (S fuel) 1 w' = Returned true w'.
Proof.
  destruct (C6_exit_reaches_finished
              (sample.chat_with_ada chat.MainMenuState ["2"]) 1
              (chat.bot_in chat.MainMenuState sample.ada)
              (snd (std.extract_int None
                      (console.typed (sample.typed_lines ["2"])))))
    as [E _]; [reflexivity..|exact E].
Defined.

Lemma C10_witness :
  chat.request 1 chat.process_input
    (sample.chat_with_ada chat.EditOptionsState ["7"; "1"]) = Returned tt
    {| chat.bots := {[1%positive := chat.bot_in chat.EditOptionsState sample.ada]};
       chat.cin := console.typed (sample.typed_lines ["1"]);
       chat.cout := EmptyString |}.
Proof.
  etransitivity.
  - apply (C10_unlisted_selection_is_noop
             (sample.chat_with_ada chat.EditOptionsState ["7"; "1"]) 1
             (chat.bot_in chat.EditOptionsState sample.ada)
             chat.EditOptionsState 7
             (snd (std.extract_int None
                     (console.typed (sample.typed_lines ["7"; "1"]))))).
    + reflexivity.
    + reflexivity.
    + repeat constructor.
    + cbn. set_unfold. lia.
    + reflexivity.
  - reflexivity.
Defined.

Lemma C9_witness :
  tcp.diagnostic tcp.TCPListen tcp.close =
    Some ("Error: current state does not implement TCPState::close" +:+ std.endl).
Proof.
  destruct (C9_default_message_names_the_request_only (istream := console.t)
              tcp.TCPListen tcp.close) as [E _]; [reflexivity|exact E].
Defined.


Lemma C8_witness :
  (∃ tw', tcp.request 1 tcp.send sample.tcp_listening = Returned tt tw' ∧
          tcp.has_state tw' 1) ∧
  (∃ w', nosingleton.request 2 nosingleton.process_input sample.two_bots
           = Returned tt w' ∧
         nosingleton.constructed w' 10 ∧ nosingleton.built_on w' 10 2).
Proof.
  destruct (C8_current_state_never_null (istream := console.t))
    as (_ & Htcp & _ & _ & Hns & _).
  split.
  - apply Htcp. eexists _, _. split; reflexivity.
  - apply Hns.
    + eexists. split; [reflexivity|]. intros []; reflexivity.
    + eexists. split; [reflexivity|]. split; [reflexivity|]. eexists. reflexivity.
Defined.

(** * Further properties *)

(** ** Text *)

Lemma append_assoc (s t u : string) : (s +:+ t) +:+ u = s +:+ (t +:+ u).
Proof.
  induction s as [|c s IH]; [done|].
  change (String c ((s +:+ t) +:+ u) = String c (s +:+ (t +:+ u))).
  by rewrite IH.
Qed.

Lemma append_empty_r (s : string) : s +:+ EmptyString = s.
Proof.
  induction s as [|c s IH]; [done|].
  change (String c (s +:+ EmptyString) = String c s). by rewrite IH.
Qed.

Lemma append_same_l (s t : string) : s +:+ t = s → t = EmptyString.
Proof.
  induction s as [|c s IH]; [done|].
  change (String c (s +:+ t) = String c s → t = EmptyString).
  intros [= E]. by apply IH.
Qed.

(** ** The connection *)

Section tcp_more.
Import tcp.

(** What any request does to a connection that has a state: the state moves
    along one of the four declared transitions or stays, [is_server_] stays,
    the other connections stay, and [std::cerr] receives the message of the
    default handler exactly when the class does not override the request. *)
Lemma tcp_request_step w a c b r :
  connections w !! a = Some (connection_in c b) →
  ∃ c',
    request a r w = Returned tt
      {| connections := <[a := connection_in c' b]> (connections w);
         cerr := if overrides c r then cerr w
                 else (cerr w +:+ default_message r) +:+ std.endl |} ∧
    (c' = c ∨ (c, r, c') ∈ [ (TCPClosed, active_open, TCPEstablished);
                             (TCPClosed, passive_open, TCPListen);
                             (TCPListen, send, TCPEstablished);
                             (TCPEstablished, close, TCPListen) ]).
Proof.
  intros Ha. rewrite (tcp_request_spec w a _ c r Ha eq_refl).
  destruct (overrides c r) eqn:Hov.
  - destruct c, r; try discriminate Hov.
    all: cbn; unfold_M; cbn; rewrite ?Ha; cbn; rewrite ?lookup_insert_eq; cbn;
      rewrite ?insert_insert_eq.
    + exists TCPEstablished. split; [|by left].
      rewrite insert_id by done. by destruct w.
    + exists TCPListen. split; [reflexivity|set_solver].
    + exists TCPEstablished. split; [|set_solver].
      unfold set_connections; cbn. by rewrite insert_insert_eq.
    + exists TCPEstablished. split; [|set_solver].
      unfold set_connections; cbn. by rewrite insert_insert_eq.
    + exists TCPListen. split; [reflexivity|set_solver].
  - exists c. split; [|by left].
    rewrite <- (tcp_request_spec w a _ c r Ha eq_refl).
    rewrite (tcp_default_handler w a _ c r Ha eq_refl Hov).
    by rewrite insert_id.
Qed.

(** A property of states that the four transitions preserve holds after
    any sequence of requests; the run returns and touches no other
    connection. *)
Lemma tcp_requests_invariant (P : TCPStateClass → Prop) w a c b rs :
  (∀ c1 r c2,
     P c1 →
     (c1, r, c2) ∈ [ (TCPClosed, active_open, TCPEstablished);
                     (TCPClosed, passive_open, TCPListen);
                     (TCPListen, send, TCPEstablished);
                     (TCPEstablished, close, TCPListen) ] →
     P c2) →
  connections w !! a = Some (connection_in c b) →
  P c →
  ∃ w' c',
    requests a rs w = Returned tt w' ∧
    connections w' !! a = Some (connection_in c' b) ∧
    P c' ∧
    ∀ x, x ≠ a → connections w' !! x = connections w !! x.
Proof.
  intros Hstep. revert w c. induction rs as [|r rs IH]; intros w c Ha HP.
  - by exists w, c.
  - destruct (tcp_request_step w a c b r Ha) as (c1 & E1 & Hc1).
    cbn [requests]. rewrite (bind_returned _ _ _ _ _ E1).
    set (w1 := {| connections := _; cerr := _ |}).
    destruct (IH w1 c1) as (w' & c' & E & Ha' & HP' & Hframe).
    + cbn. apply lookup_insert_eq.
    + destruct Hc1 as [->|Hedge]; [done|]. by eapply Hstep.
    + exists w', c'. repeat split; try done.
      intros x Hx. rewrite Hframe by done. cbn. by rewrite lookup_insert_ne.
Qed.

(** X1: whatever requests a constructed connection receives, its current
    state is the instance of [TCPClosed], [TCPListen] or [TCPEstablished]:
    the eight states added "to reflect the possible tcp states" are never
    entered. *)
Theorem X1_tcp_reachable_states w a is_server rs :
  ∃ w' c,
    (TCPConnection_ctor a is_server;; requests a rs) w = Returned tt w' ∧
    connections w' !! a = Some (connection_in c is_server) ∧
    c ∈ [TCPClosed; TCPListen; TCPEstablished].
Proof.
  rewrite (bind_returned _ _ _ _ _ (tcp_ctor_spec w a is_server)).
  edestruct (tcp_requests_invariant
               (λ c, c ∈ [TCPClosed; TCPListen; TCPEstablished])
               (set_connections <[a:=connection_in TCPClosed is_server]> w)
               a TCPClosed is_server rs)
    as (w' & c' & E & Ha & HP & _).
  - intros c1 r c2 _ Hedge. set_unfold in Hedge. set_unfold.
    destruct Hedge as [[= _ _ ->]|[[= _ _ ->]|[[= _ _ ->]|[[= _ _ ->]|[]]]]]; auto.
  - apply tcp_lookup_set.
  - set_unfold. auto.
  - by exists w', c'.
Qed.

(** X2: no transition leads back to Closed: a connection whose current
    state is not the instance of [TCPClosed] is never in that state again. *)
Theorem X2_tcp_closed_is_never_reentered w a c b rs :
  connections w !! a = Some (connection_in c b) →
  c ≠ TCPClosed →
  ∃ w' c',
    requests a rs w = Returned tt w' ∧
    connections w' !! a = Some (connection_in c' b) ∧
    c' ≠ TCPClosed.
Proof.
  intros Ha Hc.
  edestruct (tcp_requests_invariant (λ c, c ≠ TCPClosed) w a c b rs)
    as (w' & c' & E & Ha' & HP & _); try done.
  - intros c1 r c2 _ Hedge. set_unfold in Hedge.
    destruct Hedge as [[= _ _ ->]|[[= _ _ ->]|[[= _ _ ->]|[[= _ _ ->]|[]]]]]; done.
  - by exists w', c'.
Qed.

(** X3: [is_server()] returns what the constructor was given, whatever
    requests were made in between. *)
Theorem X3_tcp_is_server_is_kept w a flag rs :
  ∃ w',
    (TCPConnection_ctor a flag;; requests a rs) w = Returned tt w' ∧
    is_server a w' = Returned flag w'.
Proof.
  rewrite (bind_returned _ _ _ _ _ (tcp_ctor_spec w a flag)).
  edestruct (tcp_requests_invariant (λ _, True)
               (set_connections <[a:=connection_in TCPClosed flag]> w)
               a TCPClosed flag rs)
    as (w' & c' & E & Ha & _ & _); try done.
  - apply tcp_lookup_set.
  - exists w'. split; [done|]. unfold is_server.
    by rewrite (bind_returned _ _ _ _ _ (load_returned connections a _ w' Ha)).
Qed.

(** X4: a request writes to [std::cerr] exactly when the class of the
    current state does not override its handler. *)
Theorem X4_tcp_cerr_iff_not_overridden w a c b r :
  connections w !! a = Some (connection_in c b) →
  ∃ w',
    request a r w = Returned tt w' ∧
    (cerr w' = cerr w ↔ overrides c r = true).
Proof.
  intros Ha. destruct (tcp_request_step w a c b r Ha) as (c' & -> & _).
  eexists. split; [done|]. cbn. destruct (overrides c r); [done|].
  split; [|done]. rewrite append_assoc. intros E%append_same_l.
  by destruct r.
Qed.

(** X5: connections share the state objects, yet the requests made to one
    connection leave every other connection as it was. *)
Theorem X5_tcp_connections_are_isolated w a c b rs :
  connections w !! a = Some (connection_in c b) →
  ∃ w',
    requests a rs w = Returned tt w' ∧
    ∀ x, x ≠ a → connections w' !! x = connections w !! x.
Proof.
  intros Ha.
  edestruct (tcp_requests_invariant (λ _, True) w a c b rs)
    as (w' & c' & E & _ & _ & Hframe); try done.
  by exists w'.
Qed.

(** X6: a request fails only on a connection that has no current state (it
    was never constructed), and then as the use of an invalid pointer: no
    request makes an assertion fail. *)
Theorem X6_tcp_request_faults w a r :
  (tcp.has_state w a ∧ ∃ w', request a r w = Returned tt w') ∨
  (¬ tcp.has_state w a ∧ request a r w = Aborted InvalidPointer).
Proof.
  destruct (connections w !! a) as [[[c|] b]|] eqn:Ha.
  - left. assert (has_state w a) as Hs by (eexists _, _; by split).
    split; [done|]. destruct (tcp_request_total w a r Hs) as (w' & E & _).
    by exists w'.
  - right. split.
    + intros (conn & c & Ha' & Hc). rewrite Ha in Ha'. by injection Ha' as <-.
    + unfold request. by rewrite (bind_returned _ _ _ _ _ (load_returned _ _ _ _ Ha)).
  - right. split.
    + intros (conn & c & Ha' & Hc). by rewrite Ha in Ha'.
    + unfold request, load. unfold_M. by rewrite Ha.
Qed.

End tcp_more.

(** ** The chatbot, state by state *)

Ltac chat_exec :=
  repeat first
    [ progress cbn
    | progress unfold_M
    | progress unfold chat.request, chat.change_state, chat.ChatBot_change_state,
        chat.update_bot, chat.get_patient_info, chat.clear_screen,
        chat.set_patient_name, chat.set_patient_address, chat.set_patient_age,
        chat.set_patient_height, chat.cin_getline, chat.cin_extract_int,
        chat.cin_ignore, chat.cout_put, chat.set_bots, chat.bot_in,
        chat.instance in *
    | progress unfold
        chat.StartState_process_input, chat.MainMenuState_process_input,
        chat.CollectNameState_process_input,
        chat.CollectAddressState_process_input,
        chat.CollectAgeState_process_input,
        chat.CollectHeightState_process_input,
        chat.EditNameState_process_input, chat.EditAddressState_process_input,
        chat.EditAgeState_process_input, chat.EditHeightState_process_input,
        chat.ConfirmInfoState_process_input,
        chat.EditOptionsState_process_input, chat.FinishedState_process_input
    | progress unfold
        chat.StartState_prompt_user, chat.MainMenuState_prompt_user,
        chat.CollectNameState_prompt_user,
        chat.CollectAddressState_prompt_user,
        chat.CollectAgeState_prompt_user, chat.CollectHeightState_prompt_user,
        chat.EditNameState_prompt_user, chat.EditAddressState_prompt_user,
        chat.EditAgeState_prompt_user, chat.EditHeightState_prompt_user,
        chat.ConfirmInfoState_prompt_user, chat.EditOptionsState_prompt_user,
        chat.FinishedState_prompt_user
    | match goal with H : _ !! _ = Some _ |- _ => rewrite H end
    | match goal with H : std.getline _ = _ |- _ => rewrite H end
    | match goal with H : std.extract_int _ _ = _ |- _ => rewrite H end
    | rewrite lookup_insert_eq
    | rewrite insert_insert_eq ].

Section chat_more.
Context {istream : Type} `{!std.IStream istream}.
Import chat.
Implicit Types (w : world istream) (a : addr) (bot : ChatBot) (p : Patient).

Ltac frame_goal :=
  let Hnot := fresh in
  intros Hnot; first [reflexivity | exfalso; apply Hnot; set_unfold; tauto].

Ltac input_case :=
  eexists _, _, _, _; split;
    [ chat_exec;
      first [reflexivity | rewrite insert_id by eassumption; reflexivity]
    | split; [cbn; set_unfold; tauto|];
      cbn; repeat split; frame_goal ].

(** What [process_input] does in each state: the chatbot moves to one of the
    successors of its state, a patient field changes only in the state that
    collects or edits it, and nothing else in memory changes. *)
Lemma chat_process_input_step w a c p :
  bots w !! a = Some (bot_in c p) →
  ∃ c' p' cin' out,
    request a process_input w = Returned tt
      {| bots := <[a := bot_in c' p']> (bots w); cin := cin'; cout := out |} ∧
    c' ∈ successors c ∧
    (c ∉ [CollectNameState; EditNameState] → name p' = name p) ∧
    (c ∉ [CollectAddressState; EditAddressState] → address p' = address p) ∧
    (c ∉ [CollectAgeState; EditAgeState] → age p' = age p) ∧
    (c ∉ [CollectHeightState; EditHeightState] → height p' = height p).
Proof.
  intros Ha. destruct w as [bs ci co]; cbn in Ha.
  destruct (std.getline ci) as [l cl] eqn:Hl.
  destruct (std.extract_int None ci) as [n cn] eqn:Hn.
  destruct (std.extract_int (Some 0) ci) as [v cv] eqn:Hv.
  destruct c.
  - input_case.
  - destruct n as [|[[]|[]|]|]; input_case.
  - input_case.
  - input_case.
  - input_case.
  - input_case.
  - input_case.
  - input_case.
  - input_case.
  - input_case.
  - destruct n as [|[[]|[]|]|]; input_case.
  - destruct n as [|[[[]|[]|]|[[]|[]|]|]|]; input_case.
  - input_case.
Qed.

Lemma chat_prompt_returns w a c p :
  bots w !! a = Some (bot_in c p) →
  ∃ out, request a prompt_user w = Returned tt
           {| bots := bots w; cin := cin w; cout := out |}.
Proof.
  intros Ha. destruct w as [bs ci co]; cbn in Ha.
  destruct c; eexists; chat_exec; reflexivity.
Qed.

Lemma chat_cout_put_spec w (s : string) :
  cout_put s w = Returned tt
    {| bots := bots w; cin := cin w; cout := cout w +:+ s |}.
Proof. reflexivity. Qed.

(** X7: [clear_screen] writes 101 newlines to [std::cout], the 100 of its
    loop and that of [std::endl], and touches nothing else; its loop run [n]
    times writes [n] of them. *)
Theorem X7_chat_clear_screen w :
  (∀ n, clear_screen_loop n w = Returned tt
          {| bots := bots w; cin := cin w; cout := cout w +:+ std.newlines n |}) ∧
  clear_screen w = Returned tt
    {| bots := bots w; cin := cin w; cout := cout w +:+ std.newlines 101 |}.
Proof.
  assert (∀ n w0, clear_screen_loop n w0 = Returned tt
            {| bots := bots w0; cin := cin w0;
               cout := cout w0 +:+ std.newlines n |}) as Hloop.
  { induction n as [|n IH]; intros w0.
    - cbn. rewrite append_empty_r. by destruct w0.
    - cbn [clear_screen_loop].
      rewrite (bind_returned _ _ _ _ _ (chat_cout_put_spec w0 std.newline)).
      rewrite IH. cbn. by rewrite append_assoc. }
  split; [by intros n|].
  unfold clear_screen. rewrite (bind_returned _ _ _ _ _ (Hloop 100%nat w)).
  rewrite chat_cout_put_spec. cbn [bots cin cout]. rewrite append_assoc.
  reflexivity.
Qed.

(** X8: [prompt_user] only writes.  In every state it returns, leaves the
    chatbots and [std::cin] as they were and adds text at the end of
    [std::cout]; the text is empty exactly in the Finished state. *)
Theorem X8_chat_prompt_only_writes w a c p :
  bots w !! a = Some (bot_in c p) →
  ∃ out,
    request a prompt_user w = Returned tt
      {| bots := bots w; cin := cin w; cout := cout w +:+ out |} ∧
    (out = EmptyString ↔ c = FinishedState).
Proof.
  intros Ha. destruct w as [bs ci co]; cbn in Ha.
  destruct c.
  13: { exists EmptyString. split; [|done]. chat_exec. by rewrite append_empty_r. }
  all: eexists; split;
    [chat_exec; rewrite !append_assoc; reflexivity
    |split; intros E; discriminate E].
Qed.

Lemma chat_bot_in_eta bot c :
  current_state_ bot = instance c → bot = bot_in c (patient_ bot).
Proof. destruct bot as [cs p]. by intros [= ->]. Qed.

(** X9: the Finished state is final: whatever requests follow, nothing in
    memory, in [std::cin] or in [std::cout] changes. *)
Theorem X9_chat_finished_is_final w a p rs :
  bots w !! a = Some (bot_in FinishedState p) →
  requests a rs w = Returned tt w.
Proof.
  intros Ha. induction rs as [|r rs IH]; [done|]. cbn [requests].
  assert (request a r w = Returned tt w) as E.
  { unfold request.
    rewrite (bind_returned _ _ _ _ _ (load_returned bots a _ w Ha)).
    by destruct r. }
  by rewrite (bind_returned _ _ _ _ _ E).
Qed.

(** X10: the intake stores what is read.  From CollectName, four inputs
    lead to ConfirmInfo with a patient record made of exactly the four
    values read, whatever it held before, and nothing is written. *)
Theorem X10_chat_intake_stores_the_inputs w a p nm ad ag ht c1 c2 c3 c4 :
  bots w !! a = Some (bot_in CollectNameState p) →
  std.getline (cin w) = (nm, c1) →
  std.getline c1 = (ad, c2) →
  std.extract_int (Some 0) c2 = (ag, c3) →
  std.extract_int (Some 0) (std.ignore_line c3) = (ht, c4) →
  requests a [process_input; process_input; process_input; process_input] w
    = Returned tt
        {| bots := <[a := bot_in ConfirmInfoState
                       {| name := nm; address := ad; age := ag; height := ht |}]>
                     (bots w);
           cin := std.ignore_line c4;
           cout := cout w |}.
Proof.
  intros Ha H1 H2 H3 H4. destruct w as [bs ci co]; cbn in *.
  chat_exec. reflexivity.
Qed.

(** X11: the state graph.  [process_input] always returns and leaves the
    chatbot in one of the successors of its state; no other chatbot
    changes. *)
Theorem X11_chat_state_graph w a c p :
  bots w !! a = Some (bot_in c p) →
  ∃ w' c' p',
    request a process_input w = Returned tt w' ∧
    bots w' !! a = Some (bot_in c' p') ∧
    c' ∈ successors c ∧
    ∀ x, x ≠ a → bots w' !! x = bots w !! x.
Proof.
  intros Ha.
  destruct (chat_process_input_step w a c p Ha)
    as (c' & p' & cin' & out & E & Hsucc & _).
  eexists _, c', p'. split; [exact E|]. cbn. split; [apply lookup_insert_eq|].
  split; [done|]. intros x Hx. by rewrite lookup_insert_ne.
Qed.

(** X12: each field of the patient record is written only by the two states
    that collect or edit it: [process_input] in any other state leaves the
    field as it was. *)
Theorem X12_chat_fields_are_written_by_their_states w a c p :
  bots w !! a = Some (bot_in c p) →
  ∃ w' c' p',
    request a process_input w = Returned tt w' ∧
    bots w' !! a = Some (bot_in c' p') ∧
    (c ∉ [CollectNameState; EditNameState] → name p' = name p) ∧
    (c ∉ [CollectAddressState; EditAddressState] → address p' = address p) ∧
    (c ∉ [CollectAgeState; EditAgeState] → age p' = age p) ∧
    (c ∉ [CollectHeightState; EditHeightState] → height p' = height p).
Proof.
  intros Ha.
  destruct (chat_process_input_step w a c p Ha)
    as (c' & p' & cin' & out & E & _ & Hframe).
  eexists _, c', p'. split; [exact E|]. cbn. split; [apply lookup_insert_eq|done].
Qed.

(** X13: the Finished state is entered from the main menu only; and where
    the extraction [std::cin >> in] of the main menu stores a value, that
    value is 2, whatever [in] held before. *)
Theorem X13_chat_exit_only_from_main_menu w a c p w' p' :
  bots w !! a = Some (bot_in c p) →
  c ≠ FinishedState →
  request a process_input w = Returned tt w' →
  bots w' !! a = Some (bot_in FinishedState p') →
  c = MainMenuState ∧
  (std.extraction_writes (cin w) →
   ∀ init, (std.extract_int init (cin w)).1 = 2).
Proof.
  intros Ha Hc E Ha'.
  destruct (chat_process_input_step w a c p Ha)
    as (c1 & p1 & cin1 & out1 & E1 & Hsucc & _).
  rewrite E in E1. injection E1 as ->. cbn in Ha'.
  rewrite lookup_insert_eq in Ha'. injection Ha' as -> _.
  assert (c = MainMenuState) as ->.
  { destruct c; try done; cbn in Hsucc; set_unfold in Hsucc;
      intuition discriminate. }
  split; [done|]. intros Hwrites init. rewrite (Hwrites init).
  destruct (std.extract_int None (cin w)) as [n rest] eqn:Hn.
  rewrite (chat_main_menu_input w a _ n rest Ha eq_refl Hn) in E.
  injection E as Hbots _ _. cbn.
  repeat case_decide; try done.
  - apply (f_equal (λ m, m !! a)) in Hbots.
    rewrite !lookup_insert_eq in Hbots. discriminate Hbots.
  - apply (f_equal (λ m, m !! a)) in Hbots.
    rewrite lookup_insert_eq, Ha in Hbots. discriminate Hbots.
Qed.

(** X14: the loop of the demo never stops on a fault, it leaves the other
    chatbots alone, and it is left only in the Finished state. *)
Theorem X14_chat_demo_loop_ends_in_finished w a c p fuel :
  bots w !! a = Some (bot_in c p) →
  ∃ finished w' c' p',
    demo_loop fuel a w = Returned finished w' ∧
    bots w' !! a = Some (bot_in c' p') ∧
    (finished = true → c' = FinishedState) ∧
    ∀ x, x ≠ a → bots w' !! x = bots w !! x.
Proof.
  revert w c p. induction fuel as [|fuel IH]; intros w c p Ha.
  - exists false, w, c, p. by repeat split.
  - cbn [demo_loop].
    rewrite (bind_returned _ _ _ _ _ (chat_running_spec w a _ Ha)). cbn.
    case_bool_decide as Hc.
    + destruct (chat_prompt_returns w a c p Ha) as [o1 E1].
      rewrite (bind_returned _ _ _ _ _ E1).
      set (w1 := {| bots := bots w; cin := cin w; cout := o1 |}).
      destruct (chat_process_input_step w1 a c p Ha)
        as (c2 & p2 & cin2 & o2 & E2 & _).
      rewrite (bind_returned _ _ _ _ _ E2).
      set (w2 := {| bots := _; cin := cin2; cout := o2 |}).
      destruct (IH w2 c2 p2) as (b & w' & c' & p' & E & Ha' & Hb & Hframe).
      { apply lookup_insert_eq. }
      exists b, w', c', p'. repeat split; try done.
      intros x Hx. rewrite Hframe by done. cbn. by rewrite lookup_insert_ne.
    + exists true, w, c, p. repeat split; try done.
      intros _. by injection Hc.
Qed.

(** X15: the four setters write one field each: writes to different fields
    can be made in either order, and of two writes to the same field the
    second one stays. *)
Theorem X15_chat_setters_compose (bot : option addr) w (n1 n2 d1 d2 : string)
    (g1 g2 h1 h2 : Z) :
  ((set_patient_name bot n1;; set_patient_address bot d1) w
     = (set_patient_address bot d1;; set_patient_name bot n1) w ∧
   (set_patient_name bot n1;; set_patient_age bot g1) w
     = (set_patient_age bot g1;; set_patient_name bot n1) w ∧
   (set_patient_name bot n1;; set_patient_height bot h1) w
     = (set_patient_height bot h1;; set_patient_name bot n1) w ∧
   (set_patient_address bot d1;; set_patient_age bot g1) w
     = (set_patient_age bot g1;; set_patient_address bot d1) w ∧
   (set_patient_address bot d1;; set_patient_height bot h1) w
     = (set_patient_height bot h1;; set_patient_address bot d1) w ∧
   (set_patient_age bot g1;; set_patient_height bot h1) w
     = (set_patient_height bot h1;; set_patient_age bot g1) w) ∧
  ((set_patient_name bot n1;; set_patient_name bot n2) w
     = set_patient_name bot n2 w ∧
   (set_patient_address bot d1;; set_patient_address bot d2) w
     = set_patient_address bot d2 w ∧
   (set_patient_age bot g1;; set_patient_age bot g2) w
     = set_patient_age bot g2 w ∧
   (set_patient_height bot h1;; set_patient_height bot h2) w
     = set_patient_height bot h2 w).
Proof.
  destruct bot as [a|]; [|by repeat split].
  destruct w as [bs ci co].
  destruct (bs !! a) as [b|] eqn:Ha.
  - repeat split; chat_exec; reflexivity.
  - repeat split; chat_exec; rewrite ?Ha; reflexivity.
Qed.

(** X16: a request fails only on a chatbot that has no current state (it
    was never constructed), and then as the use of an invalid pointer: no
    request makes an assertion fail. *)
Theorem X16_chat_request_faults w a r :
  ((∃ c p, bots w !! a = Some (bot_in c p)) ∧
   ∃ w', request a r w = Returned tt w') ∨
  (¬ (∃ c p, bots w !! a = Some (bot_in c p)) ∧
   request a r w = Aborted InvalidPointer).
Proof.
  destruct (bots w !! a) as [[[c|] p]|] eqn:Ha.
  - left. split; [by exists c, p|]. destruct r.
    + destruct (chat_prompt_returns w a c p Ha) as [out E]. eauto.
    + destruct (chat_process_input_step w a c p Ha)
        as (c' & p' & cin' & out & E & _). eauto.
  - right. split; [by intros (c & p' & [=])|].
    unfold request.
    by rewrite (bind_returned _ _ _ _ _ (load_returned bots a _ w Ha)).
  - right. split; [by intros (c & p' & [=])|].
    unfold request, load. unfold_M. by rewrite Ha.
Qed.

End chat_more.

(** ** The state set *)

Ltac ns_unfold :=
  first
    [ progress unfold nosingleton.request, nosingleton.change_state,
        nosingleton.ChatBot_change_state, nosingleton.update_bot,
        nosingleton.StateSet_get_state, nosingleton.states_assign,
        nosingleton.get_patient_info, nosingleton.clear_screen,
        nosingleton.set_patient_name, nosingleton.set_patient_address,
        nosingleton.set_patient_age, nosingleton.set_patient_height,
        nosingleton.cin_getline, nosingleton.cin_extract_int,
        nosingleton.cin_ignore, nosingleton.cout_put,
        nosingleton.set_bots, nosingleton.set_sets in *
    | progress unfold
        nosingleton.StartState_process_input,
        nosingleton.MainMenuState_process_input,
        nosingleton.CollectNameState_process_input,
        nosingleton.CollectAddressState_process_input,
        nosingleton.CollectAgeState_process_input,
        nosingleton.CollectHeightState_process_input,
        nosingleton.EditNameState_process_input,
        nosingleton.EditAddressState_process_input,
        nosingleton.EditAgeState_process_input,
        nosingleton.EditHeightState_process_input,
        nosingleton.ConfirmInfoState_process_input,
        nosingleton.EditOptionsState_process_input,
        nosingleton.FinishedState_process_input
    | progress unfold
        nosingleton.StartState_prompt_user,
        nosingleton.MainMenuState_prompt_user,
        nosingleton.CollectNameState_prompt_user,
        nosingleton.CollectAddressState_prompt_user,
        nosingleton.CollectAgeState_prompt_user,
        nosingleton.CollectHeightState_prompt_user,
        nosingleton.EditNameState_prompt_user,
        nosingleton.EditAddressState_prompt_user,
        nosingleton.EditAgeState_prompt_user,
        nosingleton.EditHeightState_prompt_user,
        nosingleton.ConfirmInfoState_prompt_user,
        nosingleton.EditOptionsState_prompt_user,
        nosingleton.FinishedState_prompt_user ].

Ltac ns_exec :=
  repeat first
    [ progress cbn
    | progress unfold_M
    | ns_unfold
    | match goal with H : _ !! _ = Some _ |- _ => rewrite H end
    | match goal with H : _ !! _ = None |- _ => rewrite H end
    | match goal with H : ∀ name, _ !! name = Some _ |- _ => rewrite H end
    | match goal with H : std.getline _ = _ |- _ => rewrite H end
    | match goal with H : std.extract_int _ _ = _ |- _ => rewrite H end
    | match goal with H : nosingleton.current_state_ _ = _ |- _ => rewrite H end
    | match goal with H : nosingleton.state_set_ _ = _ |- _ => rewrite H end
    | rewrite lookup_insert_eq
    | rewrite insert_insert_eq ].

Section nosingleton_more.
Context {istream : Type} `{!std.IStream istream}.
Import nosingleton.
Implicit Types (w : world istream) (a s : addr) (bot : ChatBot).

(** X17: [get_state] never returns a null pointer and never changes
    anything, whatever the state set holds; so the assertion that follows
    the call in [ChatBot::change_state] cannot fail, in any world. *)
Theorem X17_get_state_never_returns_null w s a name :
  (∀ p w', StateSet_get_state s name w = Returned p w' → p ≠ None ∧ w' = w) ∧
  ChatBot_change_state a name w ≠ Aborted (AssertionFailed "current_state_").
Proof.
  split.
  - intros p w'.
    destruct (sets w !! s) as [set|] eqn:Hs; [|by ns_exec].
    destruct (states_ set !! name) as [[q|]|] eqn:Hn; ns_exec; try done.
    by intros [= <- <-].
  - destruct w as [bs ss ci co].
    destruct (bs !! a) as [bot|] eqn:Ha; [|by ns_exec].
    destruct (state_set_ bot) as [s'|] eqn:Hb; [|by ns_exec].
    destruct (ss !! s') as [set|] eqn:Hs; [|by ns_exec].
    destruct (states_ set !! name) as [[q|]|] eqn:Hn; by ns_exec.
Qed.

Lemma keeps_ret {A} (x : A) :
  keeps_state_sets (istream := istream) (mret x : M (world istream) A).
Proof. by intros w y w' [= <- <-]. Qed.

Lemma keeps_abort {A} e :
  keeps_state_sets (istream := istream) (abort e : M (world istream) A).
Proof. by intros w y w'. Qed.

Lemma keeps_bind {A B} (m : M (world istream) A) (f : A → M (world istream) B) :
  keeps_state_sets (istream := istream) m → (∀ x, keeps_state_sets (istream := istream) (f x)) →
  keeps_state_sets (istream := istream) (m ≫= f).
Proof.
  intros Hm Hf w y w'. unfold mbind, M_mbind, M_bind.
  destruct (m w) as [x w1|e] eqn:E; [|done]. intros E'.
  destruct (Hm _ _ _ E) as [H1 H2]. destruct (Hf x _ _ _ E') as [H3 H4].
  split; [congruence|]. intros b. by rewrite H4, H2.
Qed.

Lemma keeps_assert cond expr :
  keeps_state_sets (istream := istream) (assert cond expr : M (world istream) unit).
Proof. destruct cond; [apply keeps_ret|apply keeps_abort]. Qed.

Lemma keeps_arrow {T A} (p : option T) (f : T → M (world istream) A) :
  (∀ t, keeps_state_sets (istream := istream) (f t)) → keeps_state_sets (istream := istream) (arrow p f).
Proof. intros Hf. destruct p; [apply Hf|apply keeps_abort]. Qed.

Lemma keeps_load {T} (objs : world istream → gmap addr T) a :
  keeps_state_sets (istream := istream) (load objs a).
Proof. intros w x w'. unfold load. by destruct (objs w !! a); intros [= <- <-]. Qed.

Lemma keeps_cout_put (text : string) :
  keeps_state_sets (istream := istream) (cout_put text : M (world istream) unit).
Proof. by intros w x w' [= <- <-]. Qed.

Lemma keeps_cin_getline : keeps_state_sets (istream := istream) cin_getline.
Proof.
  intros w x w'. unfold cin_getline.
  by destruct (std.getline (cin w)); intros [= <- <-].
Qed.

Lemma keeps_cin_extract_int init : keeps_state_sets (istream := istream) (cin_extract_int init).
Proof.
  intros w x w'. unfold cin_extract_int.
  by destruct (std.extract_int init (cin w)); intros [= <- <-].
Qed.

Lemma keeps_cin_ignore : keeps_state_sets (istream := istream) cin_ignore.
Proof. by intros w x w' [= <- <-]. Qed.

Lemma keeps_update_bot a (f : ChatBot → ChatBot) :
  (∀ b, state_set_ (f b) = state_set_ b) →
  keeps_state_sets (istream := istream) (update_bot a f : M (world istream) unit).
Proof.
  intros Hf w x w'. unfold update_bot, load. unfold_M.
  destruct (bots w !! a) as [bot|] eqn:Ha; [|done]. intros [= <- <-].
  split; [done|]. intros b. cbn. destruct (decide (b = a)) as [->|Hb].
  - rewrite lookup_insert_eq, Ha. cbn. by rewrite Hf.
  - by rewrite lookup_insert_ne.
Qed.

Lemma keeps_get_state s name : keeps_state_sets (istream := istream) (StateSet_get_state s name).
Proof.
  unfold StateSet_get_state.
  repeat first [apply keeps_bind; [|intros ?] | apply keeps_load
               | apply keeps_assert | apply keeps_arrow; intros ?
               | apply keeps_ret].
Qed.

Lemma keeps_clear_screen_loop n :
  keeps_state_sets (istream := istream) (clear_screen_loop n : M (world istream) unit).
Proof.
  induction n as [|n IH]; [apply keeps_ret|].
  apply keeps_bind; [apply keeps_cout_put|by intros _].
Qed.

Ltac keeps_step :=
  lazymatch goal with
  | |- keeps_state_sets (update_bot _ _) => apply keeps_update_bot; by intros []
  | |- keeps_state_sets (StateSet_get_state _ _) => apply keeps_get_state
  | |- keeps_state_sets (clear_screen_loop _) => apply keeps_clear_screen_loop
  | |- keeps_state_sets (cout_put _) => apply keeps_cout_put
  | |- keeps_state_sets cin_getline => apply keeps_cin_getline
  | |- keeps_state_sets (cin_extract_int _) => apply keeps_cin_extract_int
  | |- keeps_state_sets cin_ignore => apply keeps_cin_ignore
  | |- keeps_state_sets (load _ _) => apply keeps_load
  | |- keeps_state_sets (assert _ _) => apply keeps_assert
  | |- keeps_state_sets (arrow _ _) => apply keeps_arrow; intros ?
  | |- keeps_state_sets (mret _) => apply keeps_ret
  | |- keeps_state_sets (_ ≫= _) => apply keeps_bind; [|intros ?]
  | |- keeps_state_sets (match ?n with _ => _ end) => destruct n
  | |- _ =>
      first
        [ progress unfold change_state, ChatBot_change_state, get_patient_info,
            clear_screen, set_patient_name, set_patient_address,
            set_patient_age, set_patient_height
        | progress unfold
            StartState_process_input, MainMenuState_process_input,
            CollectNameState_process_input, CollectAddressState_process_input,
            CollectAgeState_process_input, CollectHeightState_process_input,
            EditNameState_process_input, EditAddressState_process_input,
            EditAgeState_process_input, EditHeightState_process_input,
            ConfirmInfoState_process_input, EditOptionsState_process_input,
            FinishedState_process_input
        | progress unfold
            StartState_prompt_user, MainMenuState_prompt_user,
            CollectNameState_prompt_user, CollectAddressState_prompt_user,
            CollectAgeState_prompt_user, CollectHeightState_prompt_user,
            EditNameState_prompt_user, EditAddressState_prompt_user,
            EditAgeState_prompt_user, EditHeightState_prompt_user,
            ConfirmInfoState_prompt_user, EditOptionsState_prompt_user,
            FinishedState_prompt_user ]
  end.

(** X18: after its construction a state set is never written: a request
    that returns, in whatever world, leaves every state set as it was, and
    no chatbot is moved to another state set. *)
Theorem X18_requests_never_write_state_sets w a r w' :
  request a r w = Returned tt w' →
  sets w' = sets w ∧
  ∀ x, state_set_ <$> bots w' !! x = state_set_ <$> bots w !! x.
Proof.
  assert (keeps_state_sets (istream := istream) (request a r)) as Hkeep;
    [|apply Hkeep].
  unfold request. apply keeps_bind; [apply keeps_load|]. intros bot.
  apply keeps_arrow. intros [s m].
  apply keeps_bind; [apply keeps_load|]. intros _.
  destruct r, m; unfold virtual_call;
    cbn [class_of declared default o_prompt_user o_process_input];
    unfold id; repeat (keeps_step; cbv beta).
Qed.

(** X19: state sets are independent objects.  Constructing a second one
    leaves the first and every chatbot as they were, and no state object of
    the one is a state object of the other. *)
Theorem X19_state_sets_coexist w s1 s2 :
  s1 ≠ s2 →
  constructed w s1 →
  ∃ w',
    StateSet_ctor s2 w = Returned tt w' ∧
    constructed w' s1 ∧ constructed w' s2 ∧
    sets w' !! s1 = sets w !! s1 ∧
    bots w' = bots w ∧
    ∀ name1 name2 p1 p2,
      StateSet_get_state s1 name1 w' = Returned p1 w' →
      StateSet_get_state s2 name2 w' = Returned p2 w' →
      p1 ≠ p2.
Proof.
  intros Hne (set1 & Hset1 & Hreg1).
  destruct (ns_StateSet_ctor_spec w s2) as (set2 & E & Hreg2 & _).
  exists (set_sets <[s2:=set2]> w).
  assert (constructed (set_sets <[s2:=set2]> w) s1) as Hc1.
  { exists set1. split; [|done]. cbn. by rewrite lookup_insert_ne. }
  assert (constructed (set_sets <[s2:=set2]> w) s2) as Hc2.
  { exists set2. split; [|done]. cbn. apply lookup_insert_eq. }
  repeat split; try done.
  - cbn. by rewrite lookup_insert_ne.
  - intros name1 name2 p1 p2.
    rewrite (ns_get_state_spec _ s1 name1 Hc1), (ns_get_state_spec _ s2 name2 Hc2).
    intros [= <-] [= <-]. congruence.
Qed.

End nosingleton_more.

(** ** The two chatbots agree *)

Section variants_more.
Context {istream : Type} `{!std.IStream istream}.
Import variants.
Implicit Types (w : nosingleton.world istream) (a s : addr).

Ltac sim_case :=
  eexists; split;
    [ ns_exec; reflexivity
    | unfold to_chat_world; chat_exec;
      rewrite ?fmap_insert; reflexivity ].

Lemma variants_request_sim w s a r :
  nosingleton.constructed w s → nosingleton.built_on w s a →
  ∃ w',
    nosingleton.request a r w = Returned tt w' ∧
    chat.request a (to_chat_request r) (to_chat_world w)
      = Returned tt (to_chat_world w').
Proof.
  intros (set & Hset & Hreg) (bot & Ha & Hs & m & Hm).
  destruct w as [bs ss ci co]; cbn in *.
  destruct (std.getline ci) as [l cl] eqn:Hl.
  destruct (std.extract_int None ci) as [n cn] eqn:Hn.
  destruct (std.extract_int (Some 0) ci) as [v cv] eqn:Hv.
  assert ((to_chat_bot <$> bs) !! a = Some (to_chat_bot bot)) as Hca
    by by rewrite lookup_fmap, Ha.
  destruct bot as [cs sb p]; cbn in *; subst cs sb.
  destruct r.
  - destruct m; sim_case.
  - destruct m.
    + sim_case.
    + destruct n as [|[[]|[]|]|]; sim_case.
    + sim_case.
    + sim_case.
    + sim_case.
    + sim_case.
    + sim_case.
    + sim_case.
    + sim_case.
    + sim_case.
    + destruct n as [|[[]|[]|]|]; sim_case.
    + destruct n as [|[[[]|[]|]|[[]|[]|]|]|]; sim_case.
    + sim_case.
Qed.

Lemma variants_running_sim w s a :
  nosingleton.constructed w s → nosingleton.built_on w s a →
  ∃ go_on,
    nosingleton.running a w = Returned go_on w ∧
    chat.running a (to_chat_world w) = Returned go_on (to_chat_world w).
Proof.
  intros (set & Hset & Hreg) (bot & Ha & Hs & m & Hm).
  assert ((to_chat_bot <$> nosingleton.bots w) !! a = Some (to_chat_bot bot))
    as Hca by by rewrite lookup_fmap, Ha.
  destruct bot as [cs sb p]; cbn in *; subst cs sb.
  unfold nosingleton.running, chat.running.
  rewrite (bind_returned _ _ _ _ _
             (load_returned nosingleton.bots a _ w Ha)).
  rewrite (bind_returned _ _ _ _ _
             (load_returned chat.bots a _ (to_chat_world w) Hca)).
  cbn [arrow nosingleton.state_set_].
  rewrite (bind_returned _ _ _ _ _
             (ns_get_state_spec w s nosingleton.StateName.FinishedState
                (ex_intro _ set (conj Hset Hreg)))).
  eexists. split; [reflexivity|].
  unfold mret, M_mret, M_ret. f_equal. apply bool_decide_ext. cbn.
  destruct m; cbn; split; intros Hx; first [congruence | by intros [=]].
Qed.

(** X20: the chatbot on a state set does what the chatbot on singletons
    does.  For every sequence of requests in which the menus switch on
    values read from the input, the run on a constructed state set returns,
    and forgetting the state set before or after the run gives the same
    world of [chatbot.h]: same states, same patient records, same input
    left, same output. *)
Theorem X20_nosingleton_simulates_chat w s a rs :
  nosingleton.constructed w s → nosingleton.built_on w s a →
  nosingleton.selections_are_read a rs w →
  ∃ w',
    nosingleton.requests a rs w = Returned tt w' ∧
    chat.requests a (to_chat_request <$> rs) (to_chat_world w)
      = Returned tt (to_chat_world w').
Proof.
  intros Hcon Hon _. revert w Hcon Hon.
  induction rs as [|r rs IH]; intros w Hcon Hon.
  - by exists w.
  - destruct (variants_request_sim w s a r Hcon Hon) as (w1 & E1 & C1).
    destruct (ns_request_total w s a r Hcon Hon) as (w1' & E1' & Hcon1 & Hon1 & _).
    rewrite E1 in E1'. injection E1' as <-.
    destruct (IH w1 Hcon1 Hon1) as (w' & E & C).
    exists w'. cbn [nosingleton.requests chat.requests fmap list_fmap].
    by rewrite (bind_returned _ _ _ _ _ E1), (bind_returned _ _ _ _ _ C1).
Qed.

Lemma variants_demo_loop_sim fuel w s a :
  nosingleton.constructed w s → nosingleton.built_on w s a →
  ∃ finished w',
    nosingleton.demo_loop fuel a w = Returned finished w' ∧
    chat.demo_loop fuel a (to_chat_world w) = Returned finished (to_chat_world w').
Proof.
  revert w. induction fuel as [|fuel IH]; intros w Hcon Hon.
  - by exists false, w.
  - cbn [nosingleton.demo_loop chat.demo_loop].
    destruct (variants_running_sim w s a Hcon Hon) as (go_on & R & CR).
    rewrite (bind_returned _ _ _ _ _ R), (bind_returned _ _ _ _ _ CR).
    destruct go_on; [|by exists true, w].
    destruct (variants_request_sim w s a nosingleton.prompt_user Hcon Hon)
      as (w1 & E1 & C1).
    destruct (ns_request_total w s a nosingleton.prompt_user Hcon Hon)
      as (w1' & E1' & Hcon1 & Hon1 & _).
    rewrite E1 in E1'. injection E1' as <-.
    destruct (variants_request_sim w1 s a nosingleton.process_input Hcon1 Hon1)
      as (w2 & E2 & C2).
    destruct (ns_request_total w1 s a nosingleton.process_input Hcon1 Hon1)
      as (w2' & E2' & Hcon2 & Hon2 & _).
    rewrite E2 in E2'. injection E2' as <-.
    rewrite (bind_returned _ _ _ _ _ E1), (bind_returned _ _ _ _ _ E2).
    cbn [to_chat_request] in C1, C2.
    rewrite (bind_returned _ _ _ _ _ C1), (bind_returned _ _ _ _ _ C2).
    by apply IH.
Qed.

Lemma variants_demos_agree fuel s a age0 height0 (io : app.streams istream) :
  ∃ returned io',
    app.in_nosingleton
      (nosingleton.run_nosingleton_demo fuel s a age0 height0) io
      = Returned returned io' ∧
    app.in_chat (chat.run_chat_demo fuel a age0 height0) io
      = Returned returned io'.
Proof.
  unfold app.in_nosingleton, app.in_chat,
    nosingleton.run_nosingleton_demo, chat.run_chat_demo.
  set (w0 := {| nosingleton.bots := ∅; nosingleton.sets := ∅;
                nosingleton.cin := app.cin io; nosingleton.cout := app.cout io |}).
  destruct (ns_constructed_after_ctor w0 s) as (w1 & E1 & Hcon1 & Hb1 & Hi1 & Ho1).
  rewrite (bind_returned _ _ _ _ _ E1).
  rewrite (bind_returned _ _ _ _ _ (ns_ChatBot_ctor_spec w1 s a age0 height0 Hcon1)).
  rewrite (bind_returned _ _ _ _ _ (chat_ctor_spec _ a age0 height0)).
  set (w2 := nosingleton.set_bots _ w1).
  assert (nosingleton.built_on w2 s a) as Hon2.
  { eexists. split; [apply lookup_insert_eq|]. split; cbn; eauto. }
  destruct (variants_demo_loop_sim fuel w2 s a Hcon1 Hon2)
    as (finished & w3 & E3 & C3).
  rewrite (bind_returned _ _ _ _ _ E3).
  match goal with
  | |- context [(chat.demo_loop fuel a ≫= ?k) ?cw] =>
      assert (cw = to_chat_world w2) as ->
  end.
  { unfold to_chat_world, w2. cbn. rewrite Hb1, Hi1, Ho1. cbn.
    by rewrite fmap_insert, fmap_empty. }
  rewrite (bind_returned _ _ _ _ _ C3).
  destruct finished; eexists _, _; split; reflexivity.
Qed.

Ltac same_case :=
  eexists _, _, _, _; split; [|split];
    [ chat_exec; first [reflexivity | rewrite insert_id by eassumption; reflexivity]
    | chat_exec; first [reflexivity | rewrite insert_id by eassumption; reflexivity]
    | eexists _, _, _; split; [reflexivity|split; [reflexivity|]];
      cbn; repeat split; first [done | by intros [=]] ].

(** The ints of a patient record that have not been written are not read
    either: chatbots alike but for them, sent the same request on the same
    streams, write the same text, leave the same input, and stay alike. *)
Lemma chat_request_same_where_written (w1 w2 : chat.world istream) a1 a2 b1 b2 r :
  chat.bots w1 !! a1 = Some b1 → chat.bots w2 !! a2 = Some b2 →
  chat.same_where_written b1 b2 →
  chat.cin w1 = chat.cin w2 → chat.cout w1 = chat.cout w2 →
  ∃ b1' b2' cin' out,
    chat.request a1 r w1 = Returned tt
      {| chat.bots := <[a1 := b1']> (chat.bots w1);
         chat.cin := cin'; chat.cout := out |} ∧
    chat.request a2 r w2 = Returned tt
      {| chat.bots := <[a2 := b2']> (chat.bots w2);
         chat.cin := cin'; chat.cout := out |} ∧
    chat.same_where_written b1' b2'.
Proof.
  intros H1 H2 (c & [n1 d1 g1 h1] & [n2 d2 g2 h2] & -> & -> & Hn & Hd & Hg & Hh)
    Hcin Hcout.
  destruct w1 as [bs1 ci co], w2 as [bs2 ci2 co2]; cbn in *. subst n2 d2 ci2 co2.
  destruct (std.getline ci) as [l cl] eqn:Hl.
  destruct (std.extract_int None ci) as [n cn] eqn:Hsel.
  destruct (std.extract_int (Some 0) ci) as [v cv] eqn:Hv.
  destruct c; cbn in Hg, Hh;
    try (specialize (Hg eq_refl); subst g2);
    try (specialize (Hh eq_refl); subst h2);
    destruct r.
  all: try same_case.
  - destruct n as [|[[]|[]|]|]; same_case.
  - destruct n as [|[[]|[]|]|]; same_case.
  - destruct n as [|[[[]|[]|]|[[]|[]|]|]|]; same_case.
Qed.

Lemma chat_demo_loop_same_where_written fuel :
  ∀ (w1 w2 : chat.world istream) a1 a2 b1 b2,
    chat.bots w1 !! a1 = Some b1 → chat.bots w2 !! a2 = Some b2 →
    chat.same_where_written b1 b2 →
    chat.cin w1 = chat.cin w2 → chat.cout w1 = chat.cout w2 →
    ∃ finished (w1' w2' : chat.world istream),
      chat.demo_loop fuel a1 w1 = Returned finished w1' ∧
      chat.demo_loop fuel a2 w2 = Returned finished w2' ∧
      chat.cin w1' = chat.cin w2' ∧ chat.cout w1' = chat.cout w2'.
Proof.
  induction fuel as [|fuel IH]; intros w1 w2 a1 a2 b1 b2 H1 H2 Hsame Hcin Hcout.
  - by exists false, w1, w2.
  - cbn [chat.demo_loop].
    rewrite (bind_returned _ _ _ _ _ (chat_running_spec w1 a1 _ H1)).
    rewrite (bind_returned _ _ _ _ _ (chat_running_spec w2 a2 _ H2)).
    assert (chat.current_state_ b1 = chat.current_state_ b2) as <-.
    { by destruct Hsame as (c & p & p' & -> & -> & _). }
    case_bool_decide; [|by exists true, w1, w2].
    destruct (chat_request_same_where_written w1 w2 a1 a2 b1 b2 chat.prompt_user
                H1 H2 Hsame Hcin Hcout)
      as (b1' & b2' & c' & o' & E1 & E2 & Hsame').
    rewrite (bind_returned _ _ _ _ _ E1), (bind_returned _ _ _ _ _ E2).
    edestruct (chat_request_same_where_written
                 {| chat.bots := <[a1:=b1']> (chat.bots w1);
                    chat.cin := c'; chat.cout := o' |}
                 {| chat.bots := <[a2:=b2']> (chat.bots w2);
                    chat.cin := c'; chat.cout := o' |}
                 a1 a2 b1' b2' chat.process_input)
      as (b1'' & b2'' & c'' & o'' & E1' & E2' & Hsame'');
      [apply lookup_insert_eq|apply lookup_insert_eq|done|done|done|].
    rewrite (bind_returned _ _ _ _ _ E1'), (bind_returned _ _ _ _ _ E2').
    eapply IH; [apply lookup_insert_eq|apply lookup_insert_eq|done|done|done].
Qed.

(** What [run_chat_demo] reads and writes depends neither on where its
    chatbot is nor on what the storage of the patient's two ints held. *)
Lemma chat_demo_ignores_storage fuel a1 a2 g1 h1 g2 h2 (io : app.streams istream) :
  ∀ returned io',
    app.in_chat (chat.run_chat_demo fuel a1 g1 h1) io = Returned returned io' →
    app.in_chat (chat.run_chat_demo fuel a2 g2 h2) io = Returned returned io'.
Proof.
  intros returned io'. unfold app.in_chat, chat.run_chat_demo.
  rewrite !(bind_returned _ _ _ _ _ (chat_ctor_spec _ _ _ _)).
  edestruct (chat_demo_loop_same_where_written fuel
               (chat.set_bots
                  <[a1 := chat.bot_in chat.StartState
                            {| chat.name := EmptyString; chat.address := EmptyString;
                               chat.age := g1; chat.height := h1 |}]>
                  {| chat.bots := ∅; chat.cin := app.cin io;
                     chat.cout := app.cout io |})
               (chat.set_bots
                  <[a2 := chat.bot_in chat.StartState
                            {| chat.name := EmptyString; chat.address := EmptyString;
                               chat.age := g2; chat.height := h2 |}]>
                  {| chat.bots := ∅; chat.cin := app.cin io;
                     chat.cout := app.cout io |})
               a1 a2)
    as (finished & w1' & w2' & E1 & E2 & Hcin & Hcout);
    [apply lookup_insert_eq|apply lookup_insert_eq| |done|done|].
  { eexists _, _, _. split; [reflexivity|]. split; [reflexivity|]. by cbn. }
  rewrite (bind_returned _ _ _ _ _ E1), (bind_returned _ _ _ _ _ E2).
  destruct finished; cbn; unfold_M; cbn; rewrite Hcin, Hcout; done.
Qed.

(** X21: the two demos cannot be told apart at the console.  Started on the
    same input and output, wherever their local objects are and whatever
    the storage of these held, [run_nosingleton_demo] and [run_chat_demo]
    both run without a fault and end with the same input left, the same
    output written and the same answer to whether they returned, provided
    the menus switch on values read from the input. *)
Theorem X21_demos_agree fuel (locals chat_locals : app.frame)
    (io : app.streams istream) :
  app.selections_are_read fuel locals io →
  ∃ returned io',
    app.in_nosingleton
      (nosingleton.run_nosingleton_demo fuel (app.state_set_at locals)
         (app.bot_at locals) (app.age0 locals) (app.height0 locals)) io
      = Returned returned io' ∧
    app.in_chat
      (chat.run_chat_demo fuel (app.bot_at chat_locals)
         (app.age0 chat_locals) (app.height0 chat_locals)) io
      = Returned returned io'.
Proof.
  intros _.
  destruct (variants_demos_agree fuel (app.state_set_at locals)
              (app.bot_at locals) (app.age0 locals) (app.height0 locals) io)
    as (returned & io' & E & C).
  exists returned, io'. split; [exact E|].
  exact (chat_demo_ignores_storage _ _ _ _ _ _ _ io returned io' C).
Qed.

(** X22: in [main] the options 2 and 3 give the same session.  On inputs
    that differ only in the option typed, and on which the menus of the demo
    switch on values read, [main] runs without a fault and ends with the
    same return value, the same input left and the same output written,
    whatever the book demo is, wherever the local objects of the demos are
    and whatever their storage held. *)
Theorem X22_main_options_2_and_3_agree
    (run_book_demo : M (app.streams istream) unit) fuel locals2 locals3
    (io2 io3 : app.streams istream) rest :
  app.cout io2 = app.cout io3 →
  std.extract_int (Some 0) (app.cin io2) = (2, rest) →
  std.extract_int (Some 0) (app.cin io3) = (3, rest) →
  (∀ out, app.selections_are_read fuel locals3
            {| app.cin := std.ignore_line rest; app.cout := out |}) →
  ∃ ret io',
    app.main run_book_demo fuel locals2 io2 = Returned ret io' ∧
    app.main run_book_demo fuel locals3 io3 = Returned ret io'.
Proof.
  intros Ho H2 H3 _. destruct io2 as [c2 o], io3 as [c3 o3]; cbn in *. subst o3.
  unfold app.main, app.cout_put. unfold_M. cbn. rewrite H2, H3. cbn.
  set (io := {| app.cin := std.ignore_line rest; app.cout := _ |}).
  destruct (variants_demos_agree fuel (app.state_set_at locals3)
              (app.bot_at locals3) (app.age0 locals3) (app.height0 locals3) io)
    as (returned & io' & E & C).
  rewrite E.
  rewrite (chat_demo_ignores_storage _ _ (app.bot_at locals2) _ _
             (app.age0 locals2) (app.height0 locals2) io returned io' C).
  by eexists _, _.
Qed.

(** X23: an option other than 1, 2 and 3 (among them 4, the TCP demo being
    commented out, and 0, what an input that is not a number reads as) runs
    no demo: [main] writes its menu and "Invalid Option" and returns 0.  It
    leaves [std::cin] as [ignore] leaves what remains after the extraction
    of the option: no more than that is read. *)
Theorem X23_main_invalid_option
    (run_book_demo : M (app.streams istream) unit) fuel locals
    (io : app.streams istream) n rest :
  std.extract_int (Some 0) (app.cin io) = (n, rest) →
  n ∉ [1; 2; 3] →
  app.main run_book_demo fuel locals io = Returned (Some 0)
    {| app.cin := std.ignore_line rest;
       app.cout := (((app.cout io +:+
                      ("Choose a demo option" +:+ std.newline +:+
                       "1. Book Example" +:+ std.newline +:+ "2. ChatBot" +:+
                       std.newline +:+ "3. No Singleton")) +:+ std.endl) +:+
                    "Invalid Option") +:+ std.endl |}.
Proof.
  intros Hn Hnot. destruct io as [c o]; cbn in *.
  unfold app.main, app.cout_put. unfold_M. cbn. rewrite Hn. cbn.
  set_unfold in Hnot.
  destruct n as [|[[]|[]|]|]; try reflexivity; exfalso; apply Hnot; auto.
Qed.

End variants_more.

(** ** The further properties on sample runs *)

Lemma X2_witness :
  ∃ w' c',
    tcp.requests 1 [tcp.close; tcp.send; tcp.active_open; tcp.close]
      sample.tcp_listening = Returned tt w' ∧
    tcp.connections w' !! 1%positive = Some (tcp.connection_in c' true) ∧
    c' ≠ tcp.TCPClosed.
Proof.
  apply (X2_tcp_closed_is_never_reentered sample.tcp_listening 1 tcp.TCPListen);
    [reflexivity|discriminate].
Defined.

Lemma X4_witness :
  ∃ w',
    tcp.request 1 tcp.close sample.tcp_listening = Returned tt w' ∧
    (tcp.cerr w' = tcp.cerr sample.tcp_listening ↔
     tcp.overrides tcp.TCPListen tcp.close = true).
Proof.
  apply (X4_tcp_cerr_iff_not_overridden sample.tcp_listening 1 tcp.TCPListen true).
  reflexivity.
Defined.

Lemma X5_witness :
  ∃ w',
    tcp.requests 1 [tcp.send; tcp.close] sample.tcp_pair = Returned tt w' ∧
    tcp.connections w' !! 2%positive = Some (tcp.connection_in tcp.TCPClosed false).
Proof.
  destruct (X5_tcp_connections_are_isolated sample.tcp_pair 1 tcp.TCPListen true
              [tcp.send; tcp.close] eq_refl) as (w' & E & Hframe).
  exists w'. split; [exact E|].
  rewrite (Hframe 2%positive) by discriminate. reflexivity.
Defined.

Lemma X8_witness :
  ∃ out,
    chat.request 1 chat.prompt_user (sample.chat_with_ada chat.ConfirmInfoState [])
      = Returned tt
          {| chat.bots := chat.bots (sample.chat_with_ada chat.ConfirmInfoState []);
             chat.cin := chat.cin (sample.chat_with_ada chat.ConfirmInfoState []);
             chat.cout :=
               chat.cout (sample.chat_with_ada chat.ConfirmInfoState []) +:+ out |} ∧
    (out = EmptyString ↔ chat.ConfirmInfoState = chat.FinishedState).
Proof.
  apply (X8_chat_prompt_only_writes
           (sample.chat_with_ada chat.ConfirmInfoState []) 1
           chat.ConfirmInfoState sample.ada).
  reflexivity.
Defined.

Lemma X9_witness :
  chat.requests 1 [chat.prompt_user; chat.process_input; chat.process_input]
    (sample.chat_with_ada chat.FinishedState ["1"; "Bob"])
  = Returned tt (sample.chat_with_ada chat.FinishedState ["1"; "Bob"]).
Proof.
  apply (X9_chat_finished_is_final
           (sample.chat_with_ada chat.FinishedState ["1"; "Bob"]) 1 sample.ada).
  reflexivity.
Defined.

Lemma X10_witness :
  ∃ w',
    chat.requests 1
      [chat.process_input; chat.process_input; chat.process_input;
       chat.process_input]
      (sample.chat_with_ada chat.CollectNameState ["Bob"; "2 Side St"; "41"; "180"])
      = Returned tt w' ∧
    chat.bots w' !! 1%positive =
      Some (chat.bot_in chat.ConfirmInfoState
              {| chat.name := "Bob"; chat.address := "2 Side St";
                 chat.age := 41; chat.height := 180 |}).
Proof.
  eexists. split.
  - eapply (X10_chat_intake_stores_the_inputs
              (sample.chat_with_ada chat.CollectNameState
                 ["Bob"; "2 Side St"; "41"; "180"]) 1 sample.ada);
      reflexivity.
  - reflexivity.
Defined.

Lemma X11_witness :
  ∃ w' c' p',
    chat.request 1 chat.process_input
      (sample.chat_with_ada chat.EditOptionsState ["4"]) = Returned tt w' ∧
    chat.bots w' !! 1%positive = Some (chat.bot_in c' p') ∧
    c' ∈ chat.successors chat.EditOptionsState ∧
    ∀ x, x ≠ 1%positive →
         chat.bots w' !! x =
         chat.bots (sample.chat_with_ada chat.EditOptionsState ["4"]) !! x.
Proof.
  apply (X11_chat_state_graph
           (sample.chat_with_ada chat.EditOptionsState ["4"]) 1
           chat.EditOptionsState sample.ada).
  reflexivity.
Defined.

Lemma X12_witness :
  ∃ w' c' p',
    chat.request 1 chat.process_input
      (sample.chat_with_ada chat.EditAgeState ["31"]) = Returned tt w' ∧
    chat.bots w' !! 1%positive = Some (chat.bot_in c' p') ∧
    (chat.EditAgeState ∉ [chat.CollectNameState; chat.EditNameState] →
     chat.name p' = chat.name sample.ada) ∧
    (chat.EditAgeState ∉ [chat.CollectAddressState; chat.EditAddressState] →
     chat.address p' = chat.address sample.ada) ∧
    (chat.EditAgeState ∉ [chat.CollectAgeState; chat.EditAgeState] →
     chat.age p' = chat.age sample.ada) ∧
    (chat.EditAgeState ∉ [chat.CollectHeightState; chat.EditHeightState] →
     chat.height p' = chat.height sample.ada).
Proof.
  apply (X12_chat_fields_are_written_by_their_states
           (sample.chat_with_ada chat.EditAgeState ["31"]) 1
           chat.EditAgeState sample.ada).
  reflexivity.
Defined.

Lemma X13_witness :
  chat.MainMenuState = chat.MainMenuState ∧
  ∀ init,
    (std.extract_int init
       (chat.cin (sample.chat_with_ada chat.MainMenuState ["2"; "go"]))).1 = 2.
Proof.
  destruct (X13_chat_exit_only_from_main_menu
              (sample.chat_with_ada chat.MainMenuState ["2"; "go"]) 1
              chat.MainMenuState sample.ada
              (sample.after (chat.request 1 chat.process_input)
                 (sample.chat_with_ada chat.MainMenuState ["2"; "go"]))
              sample.ada) as [Hc Hread];
    [reflexivity|discriminate|reflexivity|reflexivity|].
  split; [exact Hc|]. apply Hread. intros init. reflexivity.
Defined.

Lemma X14_witness :
  ∃ w' p',
    chat.demo_loop 3 1 (sample.chat_pair ["go"; "2"]) = Returned true w' ∧
    chat.bots w' !! 1%positive = Some (chat.bot_in chat.FinishedState p') ∧
    chat.bots w' !! 2%positive =
      chat.bots (sample.chat_pair ["go"; "2"]) !! 2%positive.
Proof.
  destruct (X14_chat_demo_loop_ends_in_finished
              (sample.chat_pair ["go"; "2"]) 1 chat.StartState
              {| chat.name := EmptyString; chat.address := EmptyString;
                 chat.age := 0; chat.height := 0 |} 3 eq_refl)
    as (finished & w' & c' & p' & E & Ha & Hfinished & Hframe).
  assert (finished = true) as ->.
  { pose proof E as E'. vm_compute in E'. by injection E'. }
  exists w', p'. split; [exact E|]. split.
  - by rewrite Ha, (Hfinished eq_refl).
  - apply Hframe. discriminate.
Defined.

Lemma X18_witness :
  nosingleton.sets
    (sample.after (nosingleton.request 1 nosingleton.process_input) sample.two_bots)
    = nosingleton.sets sample.two_bots ∧
  ∀ x,
    nosingleton.state_set_ <$>
      nosingleton.bots
        (sample.after (nosingleton.request 1 nosingleton.process_input)
           sample.two_bots) !! x
    = nosingleton.state_set_ <$> nosingleton.bots sample.two_bots !! x.
Proof.
  apply (X18_requests_never_write_state_sets sample.two_bots 1
           nosingleton.process_input).
  reflexivity.
Defined.

Lemma X19_witness :
  ∃ w',
    nosingleton.StateSet_ctor 11 sample.two_bots = Returned tt w' ∧
    nosingleton.constructed w' 10 ∧ nosingleton.constructed w' 11 ∧
    nosingleton.sets w' !! 10%positive = nosingleton.sets sample.two_bots !! 10%positive ∧
    nosingleton.bots w' = nosingleton.bots sample.two_bots ∧
    ∀ name1 name2 p1 p2,
      nosingleton.StateSet_get_state 10 name1 w' = Returned p1 w' →
      nosingleton.StateSet_get_state 11 name2 w' = Returned p2 w' →
      p1 ≠ p2.
Proof.
  apply (X19_state_sets_coexist sample.two_bots 10 11).
  - discriminate.
  - eexists. split; [reflexivity|]. intros []; reflexivity.
Defined.

Lemma X20_witness :
  ∃ w',
    nosingleton.requests 1
      [nosingleton.prompt_user; nosingleton.process_input;
       nosingleton.prompt_user; nosingleton.process_input;
       nosingleton.process_input]
      (sample.two_bots_typed ["go"; "1"; "Ada"]) = Returned tt w' ∧
    chat.requests 1
      [chat.prompt_user; chat.process_input;
       chat.prompt_user; chat.process_input; chat.process_input]
      (variants.to_chat_world (sample.two_bots_typed ["go"; "1"; "Ada"]))
      = Returned tt (variants.to_chat_world w').
Proof.
  apply (X20_nosingleton_simulates_chat
           (sample.two_bots_typed ["go"; "1"; "Ada"]) 10 1
           [nosingleton.prompt_user; nosingleton.process_input;
            nosingleton.prompt_user; nosingleton.process_input;
            nosingleton.process_input]).
  - eexists. split; [reflexivity|]. intros []; reflexivity.
  - eexists. split; [reflexivity|]. split; [reflexivity|]. eexists. reflexivity.
  - vm_compute. repeat split; intros; reflexivity.
Defined.

Lemma X21_witness :
  ∃ io',
    app.in_nosingleton
      (nosingleton.run_nosingleton_demo 9 10 1 0 0)
      (sample.at_console ["go"; "1"; "Ada"; "1 Main St"; "30"; "170"; "2"; "2"])
      = Returned true io' ∧
    app.in_chat (chat.run_chat_demo 9 5 (-7) 123456)
      (sample.at_console ["go"; "1"; "Ada"; "1 Main St"; "30"; "170"; "2"; "2"])
      = Returned true io'.
Proof.
  destruct (X21_demos_agree 9 sample.locals
              {| app.state_set_at := 10; app.bot_at := 5;
                 app.age0 := -7; app.height0 := 123456 |}
              (sample.at_console
                 ["go"; "1"; "Ada"; "1 Main St"; "30"; "170"; "2"; "2"]))
    as (returned & io' & E & C).
  { vm_compute. repeat split; intros; reflexivity. }
  assert (returned = true) as ->.
  { pose proof E as E'. vm_compute in E'. by injection E'. }
  exists io'. split; [exact E|exact C].
Defined.

Lemma X22_witness :
  ∃ io',
    app.main sample.silent_book_demo 9 sample.locals
      (sample.at_console ["2"; "go"; "2"]) = Returned (Some 0) io' ∧
    app.main sample.silent_book_demo 9
      {| app.state_set_at := 11; app.bot_at := 5;
         app.age0 := -7; app.height0 := 123456 |}
      (sample.at_console ["3"; "go"; "2"]) = Returned (Some 0) io'.
Proof.
  destruct (X22_main_options_2_and_3_agree sample.silent_book_demo 9 sample.locals
              {| app.state_set_at := 11; app.bot_at := 5;
                 app.age0 := -7; app.height0 := 123456 |}
              (sample.at_console ["2"; "go"; "2"])
              (sample.at_console ["3"; "go"; "2"])
              (snd (std.extract_int (Some 0)
                      (app.cin (sample.at_console ["2"; "go"; "2"])))))
    as (ret & io' & E2 & E3); [reflexivity..| |].
  { intros out. vm_compute. repeat split; intros; reflexivity. }
  assert (ret = Some 0) as ->.
  { pose proof E2 as E'. vm_compute in E'. by injection E'. }
  exists io'. split; [exact E2|exact E3].
Defined.

Lemma X23_witness :
  ∃ io',
    app.main sample.silent_book_demo 9 sample.locals (sample.at_console ["4"; "1"])
      = Returned (Some 0) io' ∧
    app.cin io' = console.typed (sample.typed_lines ["1"]).
Proof.
  eexists. split.
  - eapply (X23_main_invalid_option sample.silent_book_demo 9 sample.locals
              (sample.at_console ["4"; "1"]) 4).
    + reflexivity.
    + set_unfold. lia.
  - reflexivity.
Defined.

(** A line that is not a number is not read at all: the extraction fails,
    [ignore] then does nothing, and the line is still there when [main]
    returns. *)
Example main_keeps_a_line_that_is_no_number :
  match app.main sample.silent_book_demo 9 sample.locals
          (sample.at_console ["two"; "go"]) with
  | Returned ret io' => Some (ret, app.cin io')
  | Aborted _ => None
  end
  = Some (Some 0,
          {| console.pending := sample.typed_lines ["two"; "go"];
             console.good := false |}).
Proof. vm_compute. reflexivity. Qed.
